(** * Wan2.2-S2V-14B serverless handler: a shallow embedding of [handler.py]

    The handler receives a job (a JSON mapping), stages two or three base64
    payloads into a per-job scratch directory, builds the command line of
    [generate.py], runs it under a 600 second deadline, and returns either
    [{"video": ...}] or [{"error": ...}].

    The embedding keeps Python's dynamic typing (requests are [pyval]s),
    models [return]/[raise] with a three-way result, and threads an explicit
    [World] (files, scratch directories, child processes, the processes
    they left behind, a trace of the calls made to the operating system and
    of what it did) through every statement.

    What the model leaves out or fixes:
    - a Python [str] is a [string], so its characters are code points below
      256 (those from 128 on stand for the characters outside ASCII);
    - making the scratch directory and removing it do not fail;
    - the file system has plain files and directories only (no
      permissions, links or quotas): [open] for writing fails on a
      directory and in a missing directory, and a write to an opened file
      completes;
    - paths are taken as the handler builds them, absolute and
      normalised (no [//], no [.] or [..] inside);
    - the processes a child starts and leaves running are known by their
      number only ([x_descendants]);
    - [repr] of floats and containers, the limit on the digits of an
      integer turned into text, the recursion left for [str], the scratch
      directory's name, the order in which a directory is listed and the
      behaviour of the external program are parameters ([Env]). *)

From Stdlib Require Import ZArith NArith List String Ascii Bool Lia.
From Stdlib Require Import DecimalString DecimalZ DecimalPos.
From Stdlib Require Import SpecFloat.
From Stdlib Require Strings.Byte.
Import ListNotations.

#[local] Set Warnings "-register-all".

Local Open Scope list_scope.
Local Open Scope string_scope.

(** ** Strings as Python uses them *)

Module Str.

(** [s.startswith(p)] *)
Definition startswith (s p : string) : bool := String.prefix p s.

(** [needle in s] for two strings. *)
Fixpoint contains (needle s : string) : bool :=
  String.prefix needle s
  || match s with
     | EmptyString => false
     | String _ s' => contains needle s'
     end.

(** [s.endswith(p)] *)
Definition endswith (s p : string) : bool :=
  let n := String.length s in
  let k := String.length p in
  (k <=? n)%nat && String.eqb (String.substring (n - k) k s) p.

(** [s.split(sep, 1)] for a one-character separator: the text before the
    first separator and, when there is one, the text after it. *)
Fixpoint split1 (sep : ascii) (s : string) : string * option string :=
  match s with
  | EmptyString => (EmptyString, None)
  | String c s' =>
      if Ascii.eqb c sep then (EmptyString, Some s')
      else let '(h, t) := split1 sep s' in (String c h, t)
  end.

(** The text of [s] up to the first [sep] (all of [s] when there is none). *)
Definition before (sep : ascii) (s : string) : string := fst (split1 sep s).

(** [s] without a leading [p], when [s] starts with [p]. *)
Fixpoint strip_prefix (p s : string) : option string :=
  match p, s with
  | EmptyString, _ => Some s
  | String a p', String b s' =>
      if Ascii.eqb a b then strip_prefix p' s' else None
  | String _ _, EmptyString => None
  end.

(** [os.path.dirname]: the text before the last [/] ([None] for a name
    without [/], which is looked up in the working directory). *)
Fixpoint dirname (s : string) : option string :=
  match s with
  | EmptyString => None
  | String c s' =>
      match dirname s' with
      | Some d => Some (String c d)
      | None => if Ascii.eqb c "/"%char then Some EmptyString else None
      end
  end.

(** [os.path.basename]: the text after the last [/]. *)
Fixpoint basename (s : string) : string :=
  match s with
  | EmptyString => EmptyString
  | String c s' =>
      match dirname s' with
      | Some _ => basename s'
      | None => if Ascii.eqb c "/"%char then s' else s
      end
  end.

(** [str(z)] for an integer: its decimal rendering, with a leading [-]
    for negative numbers. *)
Definition of_Z (z : Z) : string := NilZero.string_of_int (Z.to_int z).

(** Reading a decimal rendering back. *)
Definition to_Z (s : string) : option Z :=
  option_map Z.of_int (NilZero.int_of_string s).

End Str.

(** ** Python values, exceptions *)

Module Py.

(** JSON-shaped Python values. Dictionaries keep insertion order and are
    keyed by strings; a lookup takes the first binding of the key. *)
Inductive pyval : Type :=
| PNone
| PBool (b : bool)
| PInt (z : Z)
| PFloat (f : spec_float)
| PStr (s : string)
| PList (l : list pyval)
| PDict (d : list (string * pyval)).

Definition dict := list (string * pyval).

Inductive exn_class :=
| AttributeError
| TypeError
| IndexError
| ValueError
| BinasciiError
| OSError
| UnicodeDecodeError
| RecursionError
| TimeoutExpired.

(** An exception: its class and [str(e)]. *)
Record exn := mkExn { exn_cls : exn_class; exn_msg : string }.

Definition is_TimeoutExpired (e : exn) : bool :=
  match exn_cls e with TimeoutExpired => true | _ => false end.

(** [type(v).__name__] *)
Definition type_name (v : pyval) : string :=
  match v with
  | PNone => "NoneType"
  | PBool _ => "bool"
  | PInt _ => "int"
  | PFloat _ => "float"
  | PStr _ => "str"
  | PList _ => "list"
  | PDict _ => "dict"
  end.

(** [d.get(k)] / [k in d] *)
Fixpoint dict_get (k : string) (d : dict) : option pyval :=
  match d with
  | [] => None
  | (k', v) :: d' => if String.eqb k k' then Some v else dict_get k d'
  end.

Definition dict_mem (k : string) (d : dict) : bool :=
  match dict_get k d with Some _ => true | None => false end.

(** [d.get(k, default)] *)
Definition dict_get_default (k : string) (default : pyval) (d : dict) : pyval :=
  match dict_get k d with Some v => v | None => default end.

(** The dictionary without the key [k]. *)
Fixpoint dict_remove (k : string) (d : dict) : dict :=
  match d with
  | [] => []
  | (k', v) :: d' =>
      if String.eqb k k' then dict_remove k d' else (k', v) :: dict_remove k d'
  end.

Definition float_is_zero (f : spec_float) : bool :=
  match f with S754_zero _ => true | _ => false end.

(** [bool(v)]: the truth value tested by [if v:]. *)
Definition truthy (v : pyval) : bool :=
  match v with
  | PNone => false
  | PBool b => b
  | PInt z => negb (z =? 0)%Z
  | PFloat f => negb (float_is_zero f)
  | PStr s => negb (String.eqb s "")
  | PList l => match l with [] => false | _ => true end
  | PDict d => match d with [] => false | _ => true end
  end.

(** [f >= 0] on a float: false on NaN. *)
Definition float_ge_zero (f : spec_float) : bool :=
  match f with
  | S754_zero _ => true
  | S754_infinity neg => negb neg
  | S754_nan => false
  | S754_finite neg _ _ => negb neg
  end.

(** [v >= 0]: defined on numbers, a [TypeError] elsewhere. *)
Definition ge_zero (v : pyval) : bool + exn :=
  match v with
  | PInt z => inl (0 <=? z)%Z
  | PBool _ => inl true
  | PFloat f => inl (float_ge_zero f)
  | _ => inr (mkExn TypeError
               ("'>=' not supported between instances of '"
                  ++ type_name v ++ "' and 'int'"))
  end.

Definition is_str (v : pyval) : bool :=
  match v with PStr _ => true | _ => false end.

(** [needle in v] with a string [needle]: substring search in a string,
    element search in a list, key search in a dictionary, a [TypeError]
    on the values that are not containers. *)
Definition contains (needle : string) (v : pyval) : bool + exn :=
  match v with
  | PStr s => inl (Str.contains needle s)
  | PList l =>
      inl (existsb (fun x => match x with
                             | PStr s => String.eqb s needle
                             | _ => false
                             end) l)
  | PDict d => inl (dict_mem needle d)
  | _ => inr (mkExn TypeError
               ("argument of type '" ++ type_name v ++ "' is not iterable"))
  end.

(** [v.startswith(p)]: only strings have the method. *)
Definition startswith (v : pyval) (p : string) : bool + exn :=
  match v with
  | PStr s => inl (Str.startswith s p)
  | _ => inr (mkExn AttributeError
               ("'" ++ type_name v ++ "' object has no attribute 'startswith'"))
  end.

End Py.
Export Py.

(** ** The transport codec: [base64.b64decode] and [base64.b64encode] *)

Module Base64.

Local Open Scope N_scope.

Definition bytes := list Byte.byte.

Definition byte_of_N (n : N) : Byte.byte :=
  match Byte.of_N (n mod 256) with Some b => b | None => Byte.x00 end.

Definition N_of_char (c : ascii) : N := N_of_ascii c.

(** The decoding table of the alphabet [A-Za-z0-9+/]. *)
Definition sextet_of_char (c : ascii) : option N :=
  let n := N_of_char c in
  if (65 <=? n) && (n <=? 90) then Some (n - 65)
  else if (97 <=? n) && (n <=? 122) then Some (n - 97 + 26)
  else if (48 <=? n) && (n <=? 57) then Some (n - 48 + 52)
  else if n =? 43 then Some 62
  else if n =? 47 then Some 63
  else None.

Definition char_of_sextet (n : N) : ascii :=
  if n <? 26 then ascii_of_N (n + 65)
  else if n <? 52 then ascii_of_N (n - 26 + 97)
  else if n <? 62 then ascii_of_N (n - 52 + 48)
  else if n =? 62 then "+"%char
  else "/"%char.

(** The scan of [binascii.a2b_base64] in its default, lenient mode:
    characters outside the alphabet are skipped, a pad character ends the
    data once it completes a quad, and the bytes decoded so far are kept
    in reverse in [out]. [quad_pos] is the position inside the current
    group of four, [leftchar] the bits not yet emitted, [pads] the pad
    characters seen since the last data character. The result is the final
    [quad_pos] (0 after an accepted pad sequence) and the bytes. *)
Fixpoint a2b_scan (cs : list ascii) (quad_pos : nat) (leftchar : N)
         (pads : nat) (out : list N) : nat * list N :=
  match cs with
  | [] => (quad_pos, out)
  | c :: cs' =>
      if Ascii.eqb c "="%char then
        if (2 <=? quad_pos)%nat then
          if (4 <=? quad_pos + S pads)%nat then (0%nat, out)
          else a2b_scan cs' quad_pos leftchar (S pads) out
        else a2b_scan cs' quad_pos leftchar pads out
      else
        match sextet_of_char c with
        | None => a2b_scan cs' quad_pos leftchar pads out
        | Some v =>
            match quad_pos with
            | 0%nat => a2b_scan cs' 1%nat v 0%nat out
            | 1%nat =>
                a2b_scan cs' 2%nat (N.land v 15) 0%nat
                  (N.lor (N.shiftl leftchar 2) (N.shiftr v 4) :: out)
            | 2%nat =>
                a2b_scan cs' 3%nat (N.land v 3) 0%nat
                  (N.lor (N.shiftl leftchar 4) (N.shiftr v 2) :: out)
            | _ =>
                a2b_scan cs' 0%nat 0 0%nat
                  (N.lor (N.shiftl leftchar 6) v :: out)
            end
        end
  end.

Definition is_ascii (c : ascii) : bool := N_of_char c <? 128.

(** [base64.b64decode(s)] on a string: the bytes, or the exception the
    library raises ([ValueError] on a character outside ASCII,
    [binascii.Error] on a truncated final group). *)
Definition b64decode (s : string) : bytes + exn :=
  let cs := list_ascii_of_string s in
  if negb (forallb is_ascii cs) then
    inr (mkExn ValueError "string argument should contain only ASCII characters")
  else
    let '(quad_pos, out) := a2b_scan cs 0%nat 0 0%nat [] in
    match quad_pos with
    | 0%nat => inl (map byte_of_N (rev out))
    | 1%nat =>
        inr (mkExn BinasciiError
               ("Invalid base64-encoded string: number of data characters ("
                  ++ Str.of_Z (Z.of_nat (List.length out / 3 * 4 + 1)%nat)
                  ++ ") cannot be 1 more than a multiple of 4"))
    | _ => inr (mkExn BinasciiError "Incorrect padding")
    end.

Definition sextets3 (a b c : N) : list N :=
  [ N.shiftr a 2;
    N.lor (N.shiftl (N.land a 3) 4) (N.shiftr b 4);
    N.lor (N.shiftl (N.land b 15) 2) (N.shiftr c 6);
    N.land c 63 ].

(** [binascii.b2a_base64] without the trailing newline. *)
Fixpoint b2a (bs : list N) : list ascii :=
  match bs with
  | [] => []
  | [a] =>
      match sextets3 a 0 0 with
      | s0 :: s1 :: _ => [char_of_sextet s0; char_of_sextet s1; "="%char; "="%char]
      | _ => []
      end
  | [a; b] =>
      match sextets3 a b 0 with
      | s0 :: s1 :: s2 :: _ =>
          [char_of_sextet s0; char_of_sextet s1; char_of_sextet s2; "="%char]
      | _ => []
      end
  | a :: b :: c :: bs' => (map char_of_sextet (sextets3 a b c) ++ b2a bs')%list
  end.

(** [base64.b64encode(data).decode("utf-8")] *)
Definition b64encode (data : bytes) : string :=
  string_of_list_ascii (b2a (map Byte.to_N data)).

End Base64.
Export Base64.

(** ** Two more operations on values, used by [save_base64_to_file] *)

Module PyLib.

(** [v.split(",", 1)[1]] *)
Definition after_first_comma (v : pyval) : pyval + exn :=
  match v with
  | PStr s =>
      match snd (Str.split1 ","%char s) with
      | Some rest => inl (PStr rest)
      | None => inr (mkExn IndexError "list index out of range")
      end
  | _ => inr (mkExn AttributeError
               ("'" ++ type_name v ++ "' object has no attribute 'split'"))
  end.

(** [base64.b64decode(v)] *)
Definition b64decode (v : pyval) : bytes + exn :=
  match v with
  | PStr s => Base64.b64decode s
  | _ => inr (mkExn TypeError
               ("argument should be a bytes-like object or ASCII string, not '"
                  ++ type_name v ++ "'"))
  end.

End PyLib.

(** ** The operating system as the handler sees it *)

Module OS.

Definition path := string.
Definition files := list (path * bytes).

(** What one run of a child process does, as far as the handler can
    observe: the files it leaves behind, how many seconds it runs before
    it exits on its own ([None]: it never does), what it reports, whether
    its output is text at all ([x_garbled] is the message of the
    [UnicodeDecodeError] that decoding it raises, if it is not), and the
    processes it started that are still running when it ends. *)
Record execution := mkExecution {
  x_files : files;
  x_duration : option N;
  x_returncode : Z;
  x_stdout : string;
  x_stderr : string;
  x_garbled : option string;
  x_descendants : list nat
}.

Inductive behaviour :=
| CannotStart (e : exn)
| Started (x : execution).

(** [subprocess.CompletedProcess] with [capture_output=True, text=True]. *)
Record CompletedProcess := mkCompleted {
  returncode : Z;
  stdout : string;
  stderr : string
}.

Inductive event :=
| EvMkdtemp (d : path)
| EvWriteFile (p : path)
| EvReadFile (p : path)
| EvRun (cmd : list pyval) (timeout : N) (cwd : path)
| EvSpawn (pid : nat) (argv : list string)
| EvFilesLeft (pid : nat) (fs : files)
| EvExit (pid : nat) (returncode : Z) (stdout stderr : string)
| EvGarbled (pid : nat)
| EvKill (pid : nat)
| EvGlob (d : path) (found : list path)
| EvRmtree (d : path).

(** The files, the directories made by the handler, the children of the
    handler's process, the running processes that are nobody's children
    any more, and the trace. *)
Record World := mkWorld {
  w_files : files;
  w_dirs : list path;
  w_children : list nat;
  w_orphans : list nat;
  w_trace : list event
}.

Definition log (e : event) (w : World) : World :=
  mkWorld (w_files w) (w_dirs w) (w_children w) (w_orphans w) (w_trace w ++ [e])%list.

Definition set_files (fs : files) (w : World) : World :=
  mkWorld fs (w_dirs w) (w_children w) (w_orphans w) (w_trace w).

Definition set_children (cs : list nat) (w : World) : World :=
  mkWorld (w_files w) (w_dirs w) cs (w_orphans w) (w_trace w).

Definition set_orphans (os : list nat) (w : World) : World :=
  mkWorld (w_files w) (w_dirs w) (w_children w) os (w_trace w).

Definition set_dirs (ds : list path) (w : World) : World :=
  mkWorld (w_files w) ds (w_children w) (w_orphans w) (w_trace w).

(** [p] lies below the directory [d]. *)
Definition under (d p : path) : bool := Str.startswith p (d ++ "/").

Fixpoint lookup_file (p : path) (fs : files) : option bytes :=
  match fs with
  | [] => None
  | (q, b) :: fs' => if String.eqb p q then Some b else lookup_file p fs'
  end.

(** Creating or truncating the file [p]: an existing file keeps its place
    in the directory listing, a new one comes last. *)
Fixpoint store_file (p : path) (data : bytes) (fs : files) : files :=
  match fs with
  | [] => [(p, data)]
  | (q, b) :: fs' =>
      if String.eqb p q then (q, data) :: fs' else (q, b) :: store_file p data fs'
  end.

(** The name of the entry of [d] through which [p] is reached. *)
Definition entry_name (d p : path) : option string :=
  option_map (Str.before "/"%char) (Str.strip_prefix (d ++ "/") p).

Fixpoint dedup (l : list string) : list string :=
  match l with
  | [] => []
  | x :: l' => x :: filter (fun y => negb (String.eqb x y)) (dedup l')
  end.

(** The entries of the directory [d]. *)
Definition listdir (d : path) (fs : files) : list string :=
  dedup (flat_map (fun '(p, _) => match entry_name d p with
                                  | Some n => [n]
                                  | None => []
                                  end) fs).

(** The names [l] in the order the file system lists them: [before n m]
    tells whether it lists [n] before [m]. *)
Fixpoint insert_by (before : string -> string -> bool) (n : string) (l : list string)
  : list string :=
  match l with
  | [] => [n]
  | m :: l' => if before n m then n :: l else m :: insert_by before n l'
  end.

Definition sort_by (before : string -> string -> bool) (l : list string) : list string :=
  fold_right (insert_by before) [] l.

(** [os.scandir(d)]: the entries of [d] in the file system's order. *)
Definition scandir (before : string -> string -> bool) (d : path) (fs : files)
  : list string :=
  sort_by before (listdir d fs).

(** [Path(d).glob("*.mp4")] *)
Definition glob_mp4 (before : string -> string -> bool) (d : path) (fs : files)
  : list path :=
  map (fun n => d ++ "/" ++ n)
      (filter (fun n => Str.endswith n ".mp4") (scandir before d fs)).

Definition remove_pid (pid : nat) (cs : list nat) : list nat :=
  filter (fun c => negb (Nat.eqb c pid)) cs.

Definition fresh_pid (cs : list nat) : nat := S (list_max cs).

(** The child [pid] is started with [argv] and does what [x] says: the
    files are as it leaves them, and the processes it leaves behind run
    on, whoever waits for the child itself. *)
Definition spawn (pid : nat) (argv : list string) (x : execution) (w : World) : World :=
  log (EvFilesLeft pid (x_files x))
    (set_files (x_files x)
       (set_orphans (w_orphans w ++ x_descendants x)%list
          (log (EvSpawn pid argv) (set_children (pid :: w_children w) w)))).

(** The child exited on its own; its exit code and output were read. *)
Definition exited (pid : nat) (x : execution) (w : World) : World :=
  log (EvExit pid (x_returncode x) (x_stdout x) (x_stderr x)) w.

(** The child exited on its own, but what it wrote is not text. *)
Definition garbled (pid : nat) (w : World) : World := log (EvGarbled pid) w.

(** [Popen.kill] *)
Definition kill (pid : nat) (w : World) : World := log (EvKill pid) w.

(** [Popen.wait] on a child that has exited: it is a child no more. *)
Definition reap (pid : nat) (w : World) : World :=
  set_children (remove_pid pid (w_children w)) w.

(** [d] is a directory: one that was made, or one that something lies
    under. *)
Definition is_dir (d : path) (fs : files) (dirs : list path) : bool :=
  existsb (String.eqb d) dirs
  || existsb (fun '(q, _) => under d q) fs
  || existsb (under d) dirs.

(** What [open(p, "wb")] reports when it cannot create or truncate the
    file [p]: the name is empty or has a NUL character, it names a
    directory, or its directory is missing or is a file. *)
Definition open_wb_error (p : path) (fs : files) (dirs : list path) : option exn :=
  let no_entry := mkExn OSError ("[Errno 2] No such file or directory: '" ++ p ++ "'") in
  let base := Str.basename p in
  if String.eqb p "" then Some no_entry
  else if Str.contains (String Ascii.zero EmptyString) p
  then Some (mkExn ValueError "embedded null byte")
  else if String.eqb base "" || String.eqb base "." || String.eqb base ".."
          || is_dir p fs dirs
  then Some (mkExn OSError ("[Errno 21] Is a directory: '" ++ p ++ "'"))
  else
    match Str.dirname p with
    | None => None
    | Some d =>
        if String.eqb d "" || is_dir d fs dirs then None
        else match lookup_file d fs with
             | Some _ => Some (mkExn OSError ("[Errno 20] Not a directory: '" ++ p ++ "'"))
             | None => Some no_entry
             end
    end.

(** The contents of the file [p], or the error [open] reports. *)
Definition file_contents (p : path) (fs : files) : bytes + exn :=
  match lookup_file p fs with
  | Some b => inl b
  | None =>
      if existsb (fun '(q, _) => under p q) fs
      then inr (mkExn OSError ("[Errno 21] Is a directory: '" ++ p ++ "'"))
      else inr (mkExn OSError ("[Errno 2] No such file or directory: '" ++ p ++ "'"))
  end.

End OS.
Export OS.

(** ** Statements: continue, [return], or [raise] *)

Module Stmt.

Inductive Res (A : Type) : Type :=
| Next (a : A)
| Return (v : pyval)
| Raise (e : exn).
Arguments Next {A} a.
Arguments Return {A} v.
Arguments Raise {A} e.

Definition M (A : Type) : Type := World -> Res A * World.

Definition ret {A} (a : A) : M A := fun w => (Next a, w).

Definition bind {A B} (c : M A) (k : A -> M B) : M B :=
  fun w =>
    match c w with
    | (Next a, w') => k a w'
    | (Return v, w') => (Return v, w')
    | (Raise e, w') => (Raise e, w')
    end.

(** The [return v] statement. *)
Definition return_ {A} (v : pyval) : M A := fun w => (Return v, w).

Definition raise {A} (e : exn) : M A := fun w => (Raise e, w).

(** An expression that may raise. *)
Definition eval {A} (r : A + exn) : M A :=
  match r with inl a => ret a | inr e => raise e end.

(** [try: body except Exception as e: h e]. A [return] inside the body
    is not an exception and leaves the block as it is. *)
Definition try_except {A} (body : M A) (h : exn -> M A) : M A :=
  fun w =>
    match body w with
    | (Raise e, w') => h e w'
    | r => r
    end.

Definition emit (e : event) : M unit := fun w => (Next tt, log e w).

End Stmt.
Export Stmt.

Declare Scope stmt_scope.
Delimit Scope stmt_scope with stmt.
Notation "x <- c1 ;; c2" := (bind c1 (fun x => c2))
  (at level 61, c1 at next level, right associativity) : stmt_scope.
Notation "c1 ;; c2" := (bind c1 (fun _ => c2))
  (at level 61, right associativity) : stmt_scope.
Local Open Scope stmt_scope.

(** ** Process-wide configuration and the collaborators out of scope *)

(** The module-level constants of [handler.py] (read from the environment
    when the module is loaded), the interpreter path, and the things the
    handler relies on without defining them: [repr] of floats and
    containers, the interpreter's limit on the digits of an integer turned
    into text ([sys.get_int_max_str_digits()], 4300 unless configured, 0
    when there is none), the levels of recursion left where [str] is
    called (the recursion limit less the depth of the call stack), the
    directory name [tempfile] picks, the order in which the file system
    lists the names of a directory, and what the operating system does
    when asked to run a command ([child argv cwd files]). *)
Record Env := mkEnv {
  sys_executable : string;
  MODEL_DIR : string;
  DEFAULT_SIZE : string;
  DEFAULT_STEPS : Z;
  OFFLOAD_MODEL : bool;
  py_repr : pyval -> string;
  int_max_str_digits : nat;
  repr_room : nat;
  tmp_name : files -> list path -> path;
  dir_order : string -> string -> bool;
  child : list string -> path -> files -> behaviour
}.

Section Handler.

Variable env : Env.

(** *** Library calls *)

(** The integer [z] has more digits than the interpreter turns into
    text. *)
Definition too_many_digits (z : Z) : bool :=
  (0 <? int_max_str_digits env)%nat
  && (int_max_str_digits env <? String.length (Str.of_Z (Z.abs z)))%nat.

(** The exception [repr(v)] raises, if any, when [room] more levels of
    recursion are allowed: writing out a value takes one level and each
    element of a container one more, and an integer with too many digits
    cannot be written out. The elements are visited in order and the
    first failure is the one raised. *)
Fixpoint repr_error (room : nat) (v : pyval) {struct v} : option exn :=
  match room with
  | O =>
      Some (mkExn RecursionError
              "maximum recursion depth exceeded while getting the repr of an object")
  | S room' =>
      match v with
      | PInt z =>
          if too_many_digits z then
            Some (mkExn ValueError
                    ("Exceeds the limit (" ++ Str.of_Z (Z.of_nat (int_max_str_digits env))
                       ++ " digits) for integer string conversion; "
                       ++ "use sys.set_int_max_str_digits() to increase the limit"))
          else None
      | PList l =>
          (fix first (l : list pyval) : option exn :=
             match l with
             | [] => None
             | x :: l' =>
                 match repr_error room' x with
                 | Some e => Some e
                 | None => first l'
                 end
             end) l
      | PDict d =>
          (fix first (d : list (string * pyval)) : option exn :=
             match d with
             | [] => None
             | (_, x) :: d' =>
                 match repr_error room' x with
                 | Some e => Some e
                 | None => first d'
                 end
             end) d
      | _ => None
      end
  end.

(** The exception [str(v)] raises, if any: a string is returned as it is,
    every other value is written out as [repr] does. *)
Definition str_error (v : pyval) : option exn :=
  match v with
  | PStr _ => None
  | _ => repr_error (repr_room env) v
  end.

(** [str(v)] *)
Definition py_str (v : pyval) : string + exn :=
  match str_error v with
  | Some e => inr e
  | None =>
      inl (match v with
           | PStr s => s
           | PInt z => Str.of_Z z
           | PBool true => "True"
           | PBool false => "False"
           | PNone => "None"
           | _ => py_repr env v
           end)
  end.

(** [with open(p, "wb") as f: f.write(data)] *)
Definition write_file (p : path) (data : bytes) : M unit :=
  fun w =>
    match open_wb_error p (w_files w) (w_dirs w) with
    | Some e => (Raise e, w)
    | None =>
        (Next tt, log (EvWriteFile p) (set_files (store_file p data (w_files w)) w))
    end.

(** [open(p, "rb").read()] *)
Definition read_file (p : path) : M bytes :=
  fun w =>
    match file_contents p (w_files w) with
    | inl b => (Next b, log (EvReadFile p) w)
    | inr e => (Raise e, log (EvReadFile p) w)
    end.

(** [list(Path(d).glob("*.mp4"))] *)
Definition glob (d : path) : M (list path) :=
  fun w =>
    let found := glob_mp4 (dir_order env) d (w_files w) in
    (Next found, log (EvGlob d found) w).

(** [shutil.rmtree(d)]: the directory and everything below it. *)
Definition rmtree (d : path) (w : World) : World :=
  log (EvRmtree d)
    (mkWorld (filter (fun '(p, _) => negb (under d p)) (w_files w))
             (filter (fun q => negb (String.eqb q d) && negb (under d q)) (w_dirs w))
             (w_children w) (w_orphans w) (w_trace w)).

(** [with tempfile.TemporaryDirectory() as d: body d]. The directory is
    removed when the block is left, whether by falling through, by
    [return] or by an exception. *)
Definition TemporaryDirectory {A} (body : path -> M A) : M A :=
  fun w =>
    let d := tmp_name env (w_files w) (w_dirs w) in
    let w1 := log (EvMkdtemp d) (set_dirs (d :: w_dirs w) w) in
    let '(r, w2) := body d w1 in
    (r, rmtree d w2).

(** The argument vector [subprocess] hands to the operating system: every
    element must be a string without a NUL character. *)
Fixpoint argv_of (cmd : list pyval) : list string + exn :=
  match cmd with
  | [] => inl []
  | PStr s :: cmd' =>
      if Str.contains (String Ascii.zero EmptyString) s
      then inr (mkExn ValueError "embedded null byte")
      else match argv_of cmd' with
           | inl l => inl (s :: l)
           | inr e => inr e
           end
  | v :: _ =>
      inr (mkExn TypeError
             ("expected str, bytes or os.PathLike object, not " ++ type_name v))
  end.

Definition finishes_within (timeout : N) (x : execution) : bool :=
  match x_duration x with
  | Some t => (t <=? timeout)%N
  | None => false
  end.

(** [subprocess.run(cmd, capture_output=True, text=True, timeout=t, cwd=c)]:
    the child is started, waited for at most [t] seconds, and on expiry
    killed and reaped before [TimeoutExpired] is raised. The output of a
    child that exited is decoded after the wait, and what is not text
    raises [UnicodeDecodeError]. Only the child itself is killed or waited
    for. *)
Definition subprocess_run (cmd : list pyval) (timeout : N) (cwd : path)
  : M CompletedProcess :=
  emit (EvRun cmd timeout cwd) ;;
  argv <- eval (argv_of cmd) ;;
  fun w =>
    match child env argv cwd (w_files w) with
    | CannotStart e => (Raise e, w)
    | Started x =>
        let pid := fresh_pid (w_children w) in
        let w1 := spawn pid argv x w in
        if finishes_within timeout x then
          match x_garbled x with
          | Some msg => (Raise (mkExn UnicodeDecodeError msg), reap pid (garbled pid w1))
          | None =>
              (Next (mkCompleted (x_returncode x) (x_stdout x) (x_stderr x)),
               reap pid (exited pid x w1))
          end
        else
          (Raise (mkExn TimeoutExpired
                    ("Command '" ++ py_repr env (PList cmd) ++ "' timed out after "
                       ++ Str.of_Z (Z.of_N timeout) ++ " seconds")),
           reap pid (kill pid w1))
    end.

(** *** [handler.py] *)

(** [save_base64_to_file], lines 24-33. *)
Definition save_base64_to_file (b64_data : pyval) (output_path : path) : M path :=
  is_uri <- eval (Py.startswith b64_data "data:") ;;
  b64_data <- (if is_uri then eval (PyLib.after_first_comma b64_data)
               else ret b64_data) ;;
  decoded <- eval (PyLib.b64decode b64_data) ;;
  write_file output_path decoded ;;
  ret output_path.

(** [encode_file_to_base64], lines 36-39. *)
Definition encode_file_to_base64 (file_path : path) : M string :=
  data <- read_file file_path ;;
  ret (b64encode data).

Definition error_result (msg : string) : pyval := PDict [("error", PStr msg)].

(** Lines 86-90: the image extension. *)
Definition detect_image_ext (image_b64 : pyval) : string + exn :=
  match Py.startswith image_b64 "data:image/png" with
  | inr e => inr e
  | inl true => inl ".png"
  | inl false =>
      match Py.startswith image_b64 "data:image/webp" with
      | inr e => inr e
      | inl true => inl ".webp"
      | inl false => inl ".jpg"
      end
  end.

(** Lines 93-95: the audio extension. [or] evaluates its right operand
    only when the left one is false. *)
Definition detect_audio_ext (audio_b64 : pyval) : string + exn :=
  match Py.contains "audio/mp3" audio_b64 with
  | inr e => inr e
  | inl true => inl ".mp3"
  | inl false =>
      match Py.contains "audio/mpeg" audio_b64 with
      | inr e => inr e
      | inl true => inl ".mp3"
      | inl false => inl ".wav"
      end
  end.

(** Lines 102-115: the two required payloads, then the optional pose
    video; the result is [pose_path]. *)
Definition stage_inputs (temp_path : path) (image_b64 audio_b64 pose_video_b64 : pyval)
           (image_path audio_path : path) : M (option path) :=
  try_except
    (save_base64_to_file image_b64 image_path ;;
     save_base64_to_file audio_b64 audio_path ;;
     ret tt)
    (fun e => return_ (error_result ("Failed to decode input: " ++ exn_msg e))) ;;
  if truthy pose_video_b64 then
    let pose_path := temp_path ++ "/" ++ "pose.mp4" in
    try_except
      (save_base64_to_file pose_video_b64 pose_path ;; ret tt)
      (fun e => return_ (error_result ("Failed to decode pose video: " ++ exn_msg e))) ;;
    ret (Some pose_path)
  else ret None.

(** Lines 136-137: [if seed >= 0: cmd.extend(["--seed", str(seed)])], as
    the tokens to append. *)
Definition seed_tokens (seed : pyval) : list pyval + exn :=
  match ge_zero seed with
  | inr e => inr e
  | inl false => inl []
  | inl true =>
      match py_str seed with
      | inr e => inr e
      | inl s => inl [PStr "--seed"; PStr s]
      end
  end.

(** Lines 118-143: the command line. [str(steps)], [str(cfg)],
    [seed >= 0] and [str(seed)] can raise, in this order. *)
Definition build_cmd (temp_path image_path audio_path : path)
           (size steps cfg prompt negative_prompt seed : pyval)
           (pose_path : option path) : list pyval + exn :=
  match py_str steps with
  | inr e => inr e
  | inl steps_text =>
      match py_str cfg with
      | inr e => inr e
      | inl cfg_text =>
          let cmd :=
            [ PStr (sys_executable env); PStr "generate.py";
              PStr "--task"; PStr "s2v-14B";
              PStr "--size"; size;
              PStr "--ckpt_dir"; PStr (MODEL_DIR env);
              PStr "--image"; PStr image_path;
              PStr "--audio"; PStr audio_path;
              PStr "--output_dir"; PStr temp_path;
              PStr "--sample_steps"; PStr steps_text;
              PStr "--cfg_scale"; PStr cfg_text ]%list in
          let cmd := if truthy prompt
                     then (cmd ++ [PStr "--prompt"; prompt])%list else cmd in
          let cmd := if truthy negative_prompt
                     then (cmd ++ [PStr "--negative_prompt"; negative_prompt])%list
                     else cmd in
          match seed_tokens seed with
          | inr e => inr e
          | inl seed_opt =>
              let cmd := (cmd ++ seed_opt)%list in
              let cmd := if OFFLOAD_MODEL env
                         then (cmd ++ [PStr "--offload_model"; PStr "True"])%list
                         else cmd in
              let cmd := match pose_path with
                         | Some p => (cmd ++ [PStr "--pose_video"; PStr p])%list
                         | None => cmd
                         end in
              inl cmd
          end
      end
  end.

(** The two [except] clauses of lines 160-163. *)
Definition run_failure (e : exn) : pyval :=
  if is_TimeoutExpired e
  then error_result "Generation timed out (10 minutes)"
  else error_result ("Generation failed: " ++ exn_msg e).

(** Lines 146-163: the bounded run. *)
Definition run_inference (cmd : list pyval) : M CompletedProcess :=
  try_except
    (result <- subprocess_run cmd 600 "/app" ;;
     if negb (returncode result =? 0)%Z then
       return_ (PDict [("error", PStr ("Generation failed: " ++ stderr result));
                       ("stdout", PStr (stdout result))])
     else ret result)
    (fun e => return_ (run_failure e)).

(** Lines 166-182: the produced video. *)
Definition collect_output (temp_path : path) (result : CompletedProcess) : M unit :=
  output_files <- glob temp_path ;;
  match output_files with
  | [] =>
      return_ (PDict [("error", PStr "No output video generated");
                      ("stdout", PStr (stdout result));
                      ("stderr", PStr (stderr result))])
  | output_video :: _ =>
      video_b64 <-
        try_except (encode_file_to_base64 output_video)
          (fun e => return_ (error_result ("Failed to encode output: " ++ exn_msg e))) ;;
      return_ (PDict [("video", PStr video_b64)])
  end.

(** Lines 145-182: run the command, then collect its output. *)
Definition run_and_collect (cmd : list pyval) (temp_path : path) : M unit :=
  result <- run_inference cmd ;;
  collect_output temp_path result.

(** Lines 82-182: the body of the [with] block. ([output_path], line 100,
    is never read and has no counterpart here.) *)
Definition job_body (image_b64 audio_b64 prompt negative_prompt size steps cfg seed
                       pose_video_b64 : pyval) (temp_path : path) : M unit :=
  image_ext <- eval (detect_image_ext image_b64) ;;
  audio_ext <- eval (detect_audio_ext audio_b64) ;;
  let image_path := temp_path ++ "/" ++ "input" ++ image_ext in
  let audio_path := temp_path ++ "/" ++ "input" ++ audio_ext in
  pose_path <- stage_inputs temp_path image_b64 audio_b64 pose_video_b64
                 image_path audio_path ;;
  cmd <- eval (build_cmd temp_path image_path audio_path
                 size steps cfg prompt negative_prompt seed pose_path) ;;
  run_and_collect cmd temp_path.

(** The float [5.0]. *)
Definition five : spec_float := S754_finite false 5 0.

(** Lines 70-182: a request with both required fields. *)
Definition process (job_input : dict) : M unit :=
  let image_b64 := dict_get_default "image_base64" PNone job_input in
  let audio_b64 := dict_get_default "audio_base64" PNone job_input in
  let prompt := dict_get_default "prompt" (PStr "") job_input in
  let negative_prompt :=
    dict_get_default "negative_prompt"
      (PStr "blurry, low quality, distorted") job_input in
  let size := dict_get_default "size" (PStr (DEFAULT_SIZE env)) job_input in
  let steps := dict_get_default "steps" (PInt (DEFAULT_STEPS env)) job_input in
  let cfg := dict_get_default "cfg" (PFloat five) job_input in
  let seed := dict_get_default "seed" (PInt (-1)) job_input in
  let pose_video_b64 :=
    dict_get_default "pose_video_base64" PNone job_input in
  TemporaryDirectory
    (job_body image_b64 audio_b64 prompt negative_prompt size steps cfg seed
       pose_video_b64).

(** [handler], lines 42-182, as a statement. *)
Definition handler_stmt (job : dict) : M unit :=
  match dict_get "input" job with
  | Some (PDict job_input) =>
      if negb (dict_mem "image_base64" job_input) then
        return_ (error_result "Missing required field: image_base64")
      else if negb (dict_mem "audio_base64" job_input) then
        return_ (error_result "Missing required field: audio_base64")
      else process job_input
  | _ => return_ (error_result "Invalid request: missing 'input' field")
  end.

(** How a call ends for the caller. *)
Inductive outcome :=
| Returned (v : pyval)
| Raised (e : exn).

(** A body that falls off its end returns [None]. *)
Definition as_outcome (r : Res unit) : outcome :=
  match r with
  | Next _ => Returned PNone
  | Return v => Returned v
  | Raise e => Raised e
  end.

(** [handler(job)] run in the world [w]: what the caller gets, and the
    world afterwards. *)
Definition handler (job : dict) (w : World) : outcome * World :=
  let '(r, w') := handler_stmt job w in (as_outcome r, w').

End Handler.

(** ** Fixtures: a configuration and stub external programs *)

Module Fixture.

(** The value that follows [flag] on a command line. *)
Fixpoint arg_after (flag : string) (argv : list string) : option string :=
  match argv with
  | f :: ((v :: _) as rest) => if String.eqb f flag then Some v else arg_after flag rest
  | _ => None
  end.

Definition ten_bytes : bytes :=
  [Byte.x00; Byte.x01; Byte.x02; Byte.x03; Byte.x04;
   Byte.x05; Byte.x06; Byte.x07; Byte.x08; Byte.x09].

(** Writes [out.mp4] into the output directory and exits 0 after 42 s. *)
Definition writes_video (argv : list string) (cwd : path) (fs : files) : behaviour :=
  let d := match arg_after "--output_dir" argv with Some d => d | None => cwd end in
  Started (mkExecution (store_file (d ++ "/out.mp4") ten_bytes fs)
                       (Some 42%N) 0 "done" "" None []).

(** Exits 0 after 42 s and writes nothing. *)
Definition writes_nothing (argv : list string) (cwd : path) (fs : files) : behaviour :=
  Started (mkExecution fs (Some 42%N) 0 "out text" "err text" None []).

(** Exits 1 after 3 s. *)
Definition fails (argv : list string) (cwd : path) (fs : files) : behaviour :=
  Started (mkExecution fs (Some 3%N) 1 "" "CUDA out of memory" None []).

(** Never exits. *)
Definition hangs (argv : list string) (cwd : path) (fs : files) : behaviour :=
  Started (mkExecution fs None 0 "" "" None []).

Definition repr_stub (v : pyval) : string :=
  match v with PFloat _ => "5.0" | _ => "[...]" end.

(** A configuration with the defaults of [handler.py], a file system that
    lists names in the order they were created, and [prog] as the external
    program. *)
Definition env_with (prog : list string -> path -> files -> behaviour) : Env :=
  mkEnv "/usr/bin/python3" "/models/Wan2.2-S2V-14B" "832*480" 30 true
        repr_stub 4300 900 (fun _ _ => "/tmp/tmpk3x9") (fun _ _ => true) prog.

Definition env0 : Env := env_with writes_video.

Definition w0 : World := mkWorld [] [] [] [] [].

Definition job_of (input : dict) : dict := [("input", PDict input)].

(** A small JPEG-looking payload and a small WAV-looking payload. *)
Definition jpeg_b64 : string := "/9j/4AAQ".
Definition wav_b64 : string := "UklGRiQA".

(** The command line built for [good_job] below. *)
Definition good_argv : list string :=
  ["/usr/bin/python3"; "generate.py"; "--task"; "s2v-14B"; "--size"; "832*480";
   "--ckpt_dir"; "/models/Wan2.2-S2V-14B"; "--image"; "/tmp/tmpk3x9/input.jpg";
   "--audio"; "/tmp/tmpk3x9/input.wav"; "--output_dir"; "/tmp/tmpk3x9";
   "--sample_steps"; "10"; "--cfg_scale"; "5.0";
   "--negative_prompt"; "blurry, low quality, distorted";
   "--offload_model"; "True"].

(** The scenario of the specification: two valid payloads and [steps]. *)
Definition good_job : dict :=
  job_of [("image_base64", PStr jpeg_b64); ("audio_base64", PStr wav_b64);
          ("steps", PInt 10)].

(** A request with a seed, and one with an empty negative prompt; the
    command lines the handler runs for them under [env0]. *)
Definition seeded_job : dict :=
  job_of [("image_base64", PStr jpeg_b64); ("audio_base64", PStr wav_b64);
          ("seed", PInt 42)].

Definition bare_job : dict :=
  job_of [("image_base64", PStr jpeg_b64); ("audio_base64", PStr wav_b64);
          ("negative_prompt", PStr "")].

(** An image that is a number, and an audio whose base64 text happens to
    contain [audio/mp3] although it has no data-URI header. *)
Definition int_image_job : dict :=
  job_of [("image_base64", PInt 5); ("audio_base64", PStr wav_b64)].

Definition headerless_audio_job : dict :=
  job_of [("image_base64", PStr jpeg_b64); ("audio_base64", PStr "audio/mp3AAA")].

Definition wav_header_audio_job : dict :=
  job_of [("image_base64", PStr jpeg_b64);
          ("audio_base64", PStr "data:audio/wav;base64,audio/mp3AAA")].



Definition cmd_with (options : list pyval) : list pyval :=
  ([ PStr "/usr/bin/python3"; PStr "generate.py";
     PStr "--task"; PStr "s2v-14B"; PStr "--size"; PStr "832*480";
     PStr "--ckpt_dir"; PStr "/models/Wan2.2-S2V-14B";
     PStr "--image"; PStr "/tmp/tmpk3x9/input.jpg";
     PStr "--audio"; PStr "/tmp/tmpk3x9/input.wav";
     PStr "--output_dir"; PStr "/tmp/tmpk3x9";
     PStr "--sample_steps"; PStr "30"; PStr "--cfg_scale"; PStr "5.0" ]
     ++ options)%list.

Definition seeded_cmd : list pyval :=
  cmd_with [PStr "--negative_prompt"; PStr "blurry, low quality, distorted";
            PStr "--seed"; PStr "42"; PStr "--offload_model"; PStr "True"].

Definition bare_cmd : list pyval :=
  cmd_with [PStr "--offload_model"; PStr "True"].

End Fixture.

(** ** Reading a run: results, traces, command lines *)

(** The success shape [{"video": <string>}]. *)
Definition is_video_result (v : pyval) : bool :=
  match v with
  | PDict [(k, PStr _)] => String.eqb k "video"
  | _ => false
  end.

(** The failure shape [{"error": <string>}], possibly followed by string
    entries under ["stdout"] and ["stderr"]. *)
Definition is_error_result (v : pyval) : bool :=
  match v with
  | PDict ((k, PStr _) :: rest) =>
      String.eqb k "error"
      && forallb (fun '(k', x) =>
                    (String.eqb k' "stdout" || String.eqb k' "stderr") && is_str x) rest
  | _ => false
  end.

(** Exactly one of the two shapes. *)
Definition is_job_result (v : pyval) : bool :=
  xorb (is_video_result v) (is_error_result v).


(** The events a run appended to the trace. *)
Definition events_since (w w' : World) : list event :=
  skipn (List.length (w_trace w)) (w_trace w').

(** A file was written. *)
Definition is_write (e : event) : bool :=
  match e with EvWriteFile _ => true | _ => false end.

(** The options of a command line [prog script flag value flag value ...]:
    the tokens after the program and its script, taken two by two. *)
Fixpoint pairs (l : list pyval) : list (pyval * pyval) :=
  match l with
  | f :: v :: l' => (f, v) :: pairs l'
  | _ => []
  end.

Definition cmd_options (cmd : list pyval) : list (pyval * pyval) :=
  pairs (skipn 2 cmd).

(** The tokens of a list of options. *)
Definition unpairs (opts : list (pyval * pyval)) : list pyval :=
  flat_map (fun '(f, v) => [f; v]) opts.

(** The value passed with [flag], when the command line has that option. *)
Fixpoint option_lookup (flag : string) (opts : list (pyval * pyval)) : option pyval :=
  match opts with
  | [] => None
  | (PStr f, v) :: opts' =>
      if String.eqb f flag then Some v else option_lookup flag opts'
  | _ :: opts' => option_lookup flag opts'
  end.

Definition cmd_option (flag : string) (cmd : list pyval) : option pyval :=
  option_lookup flag (cmd_options cmd).

(** The request fields as the handler reads them (lines 71-79). *)
Definition negative_prompt_of (job_input : dict) : pyval :=
  dict_get_default "negative_prompt" (PStr "blurry, low quality, distorted") job_input.

Definition seed_of (job_input : dict) : pyval :=
  dict_get_default "seed" (PInt (-1)) job_input.

(** What [save_base64_to_file] computes before it writes: the bytes of
    the payload, or the exception raised on the way (no [startswith] on a
    value that is not a string, no text after a comma, a malformed
    encoding). *)
Definition decode_payload (v : pyval) : bytes + exn :=
  match Py.startswith v "data:" with
  | inr e => inr e
  | inl is_uri =>
      match (if is_uri then PyLib.after_first_comma v else inl v) with
      | inr e => inr e
      | inl v' => PyLib.b64decode v'
      end
  end.

(** What [save_base64_to_file] does with the payload [v] and the path [p]
    in the world [w]: the bytes it writes, or the exception raised by the
    decoding or, after it, by [open]. *)
Definition save_outcome (v : pyval) (p : path) (w : World) : bytes + exn :=
  match decode_payload v with
  | inr e => inr e
  | inl data =>
      match open_wb_error p (w_files w) (w_dirs w) with
      | Some e => inr e
      | None => inl data
      end
  end.

(** The world after [data] was written to [p]. *)
Definition staged (p : path) (data : bytes) (w : World) : World :=
  log (EvWriteFile p) (set_files (store_file p data (w_files w)) w).

(** From [w] to [w'] nothing happened but writes of files: the same
    directories and children, and a trace longer by [EvWriteFile] events. *)
Definition staged_only (w w' : World) : Prop :=
  w_children w' = w_children w
  /\ w_dirs w' = w_dirs w
  /\ exists evs, w_trace w' = (w_trace w ++ evs)%list /\ forallb is_write evs = true.

(** The world in which the body of the [with] block starts: the scratch
    directory [d] has just been made. *)
Definition enter_tempdir (d : path) (w : World) : World :=
  log (EvMkdtemp d) (set_dirs (d :: w_dirs w) w).

(** What happens inside the [with] block: anything but making or removing
    a scratch directory. *)
Definition is_body_event (e : event) : bool :=
  match e with EvMkdtemp _ | EvRmtree _ => false | _ => true end.

(** What [run_and_collect] does after its call to [subprocess.run]: start
    a child, see it exit or kill it, list the directory, read a file. *)
Definition is_child_event (e : event) : bool :=
  match e with
  | EvSpawn _ _ | EvFilesLeft _ _ | EvExit _ _ _ _ | EvGarbled _ | EvKill _
  | EvGlob _ _ | EvReadFile _ => true
  | _ => false
  end.


(** The options a command line must have whatever the request, and the
    ones that depend on it; [flag_if] is one conditional option. *)
Definition flag_if (b : bool) (flag : string) (v : pyval) : list (pyval * pyval) :=
  if b then [(PStr flag, v)] else [].



(** The values [seed >= 0] is defined on. *)
Definition is_number (v : pyval) : bool :=
  match v with PInt _ | PBool _ | PFloat _ => true | _ => false end.

(** The values [in] is defined on. *)
Definition is_container (v : pyval) : bool :=
  match v with PStr _ | PList _ | PDict _ => true | _ => false end.

(** A request the handler can process without a type error: if it has an
    input mapping, the image there (if any) is a string, the audio (if any)
    a string or another container, and the seed (if any) a number. *)
Definition well_typed (job : dict) : Prop :=
  forall inp, dict_get "input" job = Some (PDict inp) ->
    (forall v, dict_get "image_base64" inp = Some v -> is_str v = true)
    /\ (forall v, dict_get "audio_base64" inp = Some v -> is_container v = true)
    /\ (forall v, dict_get "seed" inp = Some v -> is_number v = true).

(** A request whose numbers can be written out: [str] raises on none of
    the steps, the cfg scale and the seed in force (the request's, or the
    default), that is, they hold no integer with more digits than the
    interpreter turns into text and are not nested deeper than the
    recursion left allows. *)
Definition printable (env : Env) (job : dict) : Prop :=
  forall inp, dict_get "input" job = Some (PDict inp) ->
    str_error env (dict_get_default "steps" (PInt (DEFAULT_STEPS env)) inp) = None
    /\ str_error env (dict_get_default "cfg" (PFloat five) inp) = None
    /\ str_error env (seed_of inp) = None.

(** Request-shape defects, named as the handler reports them. *)
Inductive defect := NoInputMapping | NoImage | NoAudio.

Definition has_defect (job : dict) (d : defect) : Prop :=
  match d with
  | NoInputMapping => forall inp, dict_get "input" job <> Some (PDict inp)
  | NoImage =>
      exists inp, dict_get "input" job = Some (PDict inp)
                  /\ dict_get "image_base64" inp = None
  | NoAudio =>
      exists inp, dict_get "input" job = Some (PDict inp)
                  /\ dict_get "audio_base64" inp = None
  end.

Definition defect_message (d : defect) : string :=
  match d with
  | NoInputMapping => "Invalid request: missing 'input' field"
  | NoImage => "Missing required field: image_base64"
  | NoAudio => "Missing required field: audio_base64"
  end.

(** A call to [subprocess.run]. *)
Definition is_run_call (e : event) : bool :=
  match e with EvRun _ _ _ => true | _ => false end.

(** The pose path the command builder is given for a pose value. *)
Definition pose_path_of (d : path) (pose : pyval) : option path :=
  if truthy pose then Some (d ++ "/" ++ "pose.mp4") else None.

(** The files staged for a pose value, after the image and the audio. *)
Definition staged_paths (ip ap d : path) (pose : pyval) : list path :=
  ip :: ap :: (if truthy pose then [d ++ "/" ++ "pose.mp4"] else []).

(** No comma in a text. *)
Definition comma_free (s : string) : bool :=
  forallb (fun c => negb (Ascii.eqb c ","%char)) (list_ascii_of_string s).

(** More requests and programs for the scenarios. *)
Module Cases.

(** A request with a pose video, and the command line run for it. *)
Definition pose_job : dict :=
  Fixture.job_of [("image_base64", PStr Fixture.jpeg_b64);
                  ("audio_base64", PStr Fixture.wav_b64);
                  ("pose_video_base64", PStr "AAAA")].

Definition pose_cmd : list pyval :=
  Fixture.cmd_with
    [PStr "--negative_prompt"; PStr "blurry, low quality, distorted";
     PStr "--offload_model"; PStr "True";
     PStr "--pose_video"; PStr "/tmp/tmpk3x9/pose.mp4"].

(** The two required payloads and nothing else. *)
Definition minimal_input : dict :=
  [("image_base64", PStr Fixture.jpeg_b64); ("audio_base64", PStr Fixture.wav_b64)].

Definition minimal_cmd : list pyval :=
  Fixture.cmd_with
    [PStr "--negative_prompt"; PStr "blurry, low quality, distorted";
     PStr "--offload_model"; PStr "True"].

(** A size that is a number. *)
Definition int_size_job : dict :=
  Fixture.job_of [("image_base64", PStr Fixture.jpeg_b64);
                  ("audio_base64", PStr Fixture.wav_b64);
                  ("size", PInt 480)].

Definition int_size_cmd : list pyval :=
  [ PStr "/usr/bin/python3"; PStr "generate.py";
    PStr "--task"; PStr "s2v-14B"; PStr "--size"; PInt 480;
    PStr "--ckpt_dir"; PStr "/models/Wan2.2-S2V-14B";
    PStr "--image"; PStr "/tmp/tmpk3x9/input.jpg";
    PStr "--audio"; PStr "/tmp/tmpk3x9/input.wav";
    PStr "--output_dir"; PStr "/tmp/tmpk3x9";
    PStr "--sample_steps"; PStr "30"; PStr "--cfg_scale"; PStr "5.0";
    PStr "--negative_prompt"; PStr "blurry, low quality, distorted";
    PStr "--offload_model"; PStr "True" ].

(** A request with a prompt. *)
Definition prompt_job : dict :=
  Fixture.job_of [("image_base64", PStr Fixture.jpeg_b64);
                  ("audio_base64", PStr Fixture.wav_b64);
                  ("prompt", PStr "a person talking")].

Definition prompt_cmd : list pyval :=
  Fixture.cmd_with
    [PStr "--prompt"; PStr "a person talking";
     PStr "--negative_prompt"; PStr "blurry, low quality, distorted";
     PStr "--offload_model"; PStr "True"].





(** The two files staged for [Fixture.good_job]. *)
Definition staged_good : files :=
  [("/tmp/tmpk3x9/input.jpg",
    [Byte.xff; Byte.xd8; Byte.xff; Byte.xe0; Byte.x00; Byte.x10]);
   ("/tmp/tmpk3x9/input.wav",
    [Byte.x52; Byte.x49; Byte.x46; Byte.x46; Byte.x24; Byte.x00])].


(** Steps given as an integer of 4301 digits. *)
Definition huge_steps_job : dict :=
  Fixture.job_of [("image_base64", PStr Fixture.jpeg_b64);
                  ("audio_base64", PStr Fixture.wav_b64);
                  ("steps", PInt (10 ^ 4300))].

(** Exits 0 after 5 s, having written bytes that are no text. *)
Definition writes_garbage (argv : list string) (cwd : path) (fs : files) : behaviour :=
  Started (mkExecution fs (Some 5%N) 0 "" ""
             (Some "'utf-8' codec can't decode byte 0xff in position 0: invalid start byte")
             []).

(** The configuration of [Fixture.env0] on a file system that lists the
    newest name first. *)
Definition env_newest_first : Env :=
  mkEnv "/usr/bin/python3" "/models/Wan2.2-S2V-14B" "832*480" 30 true
        Fixture.repr_stub 4300 900 (fun _ _ => "/tmp/tmpk3x9") (fun _ _ => false)
        Fixture.writes_video.

(** A world with one file outside any scratch directory. *)
Definition w_clip : World := mkWorld [("/srv/clip.mp4", Fixture.ten_bytes)] [] [] [] [].

End Cases.

(** [P] holds of every number below [k], checked by running it. *)
Definition all_below (k : nat) (P : N -> bool) : bool :=
  forallb P (map N.of_nat (seq 0 k)).

(** The characters [b64encode] writes. *)
Definition is_b64_char (c : ascii) : bool :=
  match sextet_of_char c with
  | Some _ => true
  | None => Ascii.eqb c "="%char
  end.

(** The three bytes a group of four sextets decodes to, as the scan of
    [a2b_scan] computes them. *)
Definition regroup (v0 v1 v2 v3 : N) : list N :=
  [ N.lor (N.shiftl v0 2) (N.shiftr v1 4);
    N.lor (N.shiftl (N.land v1 15) 4) (N.shiftr v2 2);
    N.lor (N.shiftl (N.land v2 3) 6) v3 ].

(** * Properties *)

(** ** Request validation *)

Lemma dict_mem_false (k : string) (d : dict) :
  dict_mem k d = false <-> dict_get k d = None.
Proof.
  unfold dict_mem. destruct (dict_get k d); split; congruence.
Qed.

Lemma dict_mem_true (k : string) (d : dict) :
  dict_mem k d = true <-> exists v, dict_get k d = Some v.
Proof.
  unfold dict_mem. destruct (dict_get k d) as [v|]; split.
  - eauto.
  - reflexivity.
  - discriminate.
  - intros [v H]. discriminate.
Qed.

Lemma events_since_refl (w : World) : events_since w w = [].
Proof.
  unfold events_since. apply skipn_all.
Qed.

Lemma defect_message_inj (d1 d2 : defect) :
  defect_message d1 = defect_message d2 -> d1 = d2.
Proof.
  destruct d1, d2; simpl; intros H; try reflexivity; discriminate H.
Qed.

(** C2. A request without an input mapping, or whose input mapping lacks
    the image or the audio field, is answered with an error naming a defect
    the request really has; the three messages are pairwise distinct; and
    the world is left exactly as it was: no call to [subprocess.run], no
    scratch directory, no file written. *)
Theorem C2_validation_fails_fast (env : Env) (job : dict) (w : World) (d : defect) :
  has_defect job d ->
  exists d',
    has_defect job d'
    /\ handler env job w = (Returned (error_result (defect_message d')), w)
    /\ events_since w (snd (handler env job w)) = []
    /\ (forall d1 d2, defect_message d1 = defect_message d2 -> d1 = d2).
Proof.
  intros Hd.
  assert (Hcases :
            exists d', has_defect job d'
                       /\ handler env job w
                          = (Returned (error_result (defect_message d')), w)).
  { unfold handler, handler_stmt.
    destruct (dict_get "input" job) as [v|] eqn:Hin.
    2:{ exists NoInputMapping. split; [| reflexivity].
        intros inp. rewrite Hin. discriminate. }
    destruct v;
      try (exists NoInputMapping; split;
           [intros inp; rewrite Hin; discriminate | reflexivity]).
    rename d0 into inp.
    destruct (dict_mem "image_base64" inp) eqn:Himg.
    2:{ exists NoImage. split; [| reflexivity].
        exists inp. split; [exact Hin | now apply dict_mem_false]. }
    destruct (dict_mem "audio_base64" inp) eqn:Haud.
    2:{ exists NoAudio. split; [| reflexivity].
        exists inp. split; [exact Hin | now apply dict_mem_false]. }
    exfalso. destruct d; simpl in Hd.
    - now apply (Hd inp).
    - destruct Hd as (inp' & Hin' & Hn).
      apply dict_mem_false in Hn. congruence.
    - destruct Hd as (inp' & Hin' & Hn).
      apply dict_mem_false in Hn. congruence. }
  destruct Hcases as (d' & Hd' & Hrun).
  exists d'. rewrite Hrun. simpl snd.
  repeat split; auto using events_since_refl, defect_message_inj.
Qed.

Lemma C2_validation_fails_fast_witness :
  has_defect [("input", PList [])] NoInputMapping
  /\ exists d',
      has_defect [("input", PList [])] d'
      /\ handler Fixture.env0 [("input", PList [])] Fixture.w0
         = (Returned (error_result (defect_message d')), Fixture.w0)
      /\ events_since Fixture.w0
           (snd (handler Fixture.env0 [("input", PList [])] Fixture.w0)) = []
      /\ (forall d1 d2, defect_message d1 = defect_message d2 -> d1 = d2).
Proof.
  assert (H : has_defect [("input", PList [])] NoInputMapping).
  { intros inp. simpl. discriminate. }
  split; [exact H |].
  exact (C2_validation_fails_fast Fixture.env0 [("input", PList [])]
           Fixture.w0 NoInputMapping H).
Defined.

(** ** The stages, one equation each *)

Section Stages.

Variable env : Env.

Lemma save_base64_to_file_eq (v : pyval) (p : path) (w : World) :
  save_base64_to_file v p w =
    match save_outcome v p w with
    | inl data => (Next p, staged p data w)
    | inr e => (Raise e, w)
    end.
Proof.
  unfold save_base64_to_file, save_outcome, decode_payload, staged, bind, eval,
    write_file.
  destruct (Py.startswith v "data:") as [[|]|e]; cbn [ret raise]; try reflexivity.
  - destruct (PyLib.after_first_comma v) as [v'|e]; cbn [ret raise]; try reflexivity.
    destruct (PyLib.b64decode v'); cbn [ret raise]; [| reflexivity].
    destruct (open_wb_error p (w_files w) (w_dirs w)); reflexivity.
  - destruct (PyLib.b64decode v); cbn [ret raise]; [| reflexivity].
    destruct (open_wb_error p (w_files w) (w_dirs w)); reflexivity.
Qed.

Lemma stage_inputs_eq (d : path) (img aud pose : pyval) (ip ap : path) (w : World) :
  stage_inputs d img aud pose ip ap w =
    match save_outcome img ip w with
    | inr e => (Return (error_result ("Failed to decode input: " ++ exn_msg e)), w)
    | inl bi =>
        match save_outcome aud ap (staged ip bi w) with
        | inr e => (Return (error_result ("Failed to decode input: " ++ exn_msg e)),
                    staged ip bi w)
        | inl ba =>
            if truthy pose then
              match save_outcome pose (d ++ "/" ++ "pose.mp4")
                      (staged ap ba (staged ip bi w)) with
              | inr e =>
                  (Return (error_result ("Failed to decode pose video: " ++ exn_msg e)),
                   staged ap ba (staged ip bi w))
              | inl bp =>
                  (Next (Some (d ++ "/" ++ "pose.mp4")),
                   staged (d ++ "/" ++ "pose.mp4") bp (staged ap ba (staged ip bi w)))
              end
            else (Next None, staged ap ba (staged ip bi w))
        end
    end.
Proof.
  unfold stage_inputs, bind, try_except.
  rewrite save_base64_to_file_eq.
  destruct (save_outcome img ip w) as [bi|e]; [| reflexivity].
  rewrite save_base64_to_file_eq.
  destruct (save_outcome aud ap _) as [ba|e]; [| reflexivity].
  cbn [ret].
  destruct (truthy pose); [| reflexivity].
  rewrite save_base64_to_file_eq.
  destruct (save_outcome pose _ _) as [bp|e]; reflexivity.
Qed.

(** The run and the collection of its output, as one decision tree. *)
Lemma run_and_collect_eq (cmd : list pyval) (d : path) (w : World) :
  run_and_collect env cmd d w =
    let w1 := log (EvRun cmd 600 "/app") w in
    match argv_of cmd with
    | inr e => (Return (run_failure e), w1)
    | inl argv =>
        match child env argv "/app" (w_files w) with
        | CannotStart e => (Return (run_failure e), w1)
        | Started x =>
            let pid := fresh_pid (w_children w) in
            let w2 := spawn pid argv x w1 in
            if finishes_within 600 x then
              match x_garbled x with
              | Some msg =>
                  (Return (error_result ("Generation failed: " ++ msg)),
                   reap pid (garbled pid w2))
              | None =>
              let w3 := reap pid (exited pid x w2) in
              if (x_returncode x =? 0)%Z then
                match glob_mp4 (dir_order env) d (x_files x) with
                | [] =>
                    (Return (PDict [("error", PStr "No output video generated");
                                    ("stdout", PStr (x_stdout x));
                                    ("stderr", PStr (x_stderr x))]),
                     log (EvGlob d []) w3)
                | p :: ps =>
                    match file_contents p (x_files x) with
                    | inl b =>
                        (Return (PDict [("video", PStr (b64encode b))]),
                         log (EvReadFile p) (log (EvGlob d (p :: ps)) w3))
                    | inr e =>
                        (Return (error_result ("Failed to encode output: " ++ exn_msg e)),
                         log (EvReadFile p) (log (EvGlob d (p :: ps)) w3))
                    end
                end
              else
                (Return (PDict [("error", PStr ("Generation failed: " ++ x_stderr x));
                                ("stdout", PStr (x_stdout x))]),
                 w3)
              end
            else
              (Return (error_result "Generation timed out (10 minutes)"),
               reap pid (kill pid w2))
        end
    end.
Proof.
  unfold run_and_collect, run_inference, subprocess_run, collect_output,
    encode_file_to_base64, read_file, glob, bind, try_except, emit, eval.
  cbn zeta.
  destruct (argv_of cmd) as [argv|e]; cbn [ret raise return_]; [| reflexivity].
  cbn [w_files w_children log].
  destruct (child env argv "/app" (w_files w)) as [e|x]; [reflexivity |].
  destruct (finishes_within 600 x); [| reflexivity].
  destruct (x_garbled x) as [msg|]; [reflexivity |].
  cbn [returncode stdout stderr ret].
  destruct (x_returncode x =? 0)%Z;
    cbn [negb return_ ret w_files reap exited spawn set_children set_files
         set_orphans log];
    [| reflexivity].
  destruct (glob_mp4 (dir_order env) d (x_files x)) as [|p ps]; [reflexivity |].
  cbn [w_files reap exited spawn set_children set_files set_orphans log].
  destruct (file_contents p (x_files x)); reflexivity.
Qed.

Lemma staged_only_refl (w : World) : staged_only w w.
Proof.
  repeat split. exists []. now rewrite app_nil_r.
Qed.

Lemma staged_only_step (w w' : World) (p : path) (data : bytes) :
  staged_only w w' -> staged_only w (staged p data w').
Proof.
  intros (Hc & Hd & evs & Ht & Hw).
  unfold staged_only, staged, log, set_files.
  cbn [w_children w_dirs w_trace w_files].
  repeat split; auto.
  exists (evs ++ [EvWriteFile p])%list. split.
  - now rewrite Ht, app_assoc.
  - rewrite forallb_app, Hw. reflexivity.
Qed.

(** Staging only writes files, and never raises. *)
Lemma stage_inputs_frame (d : path) (img aud pose : pyval) (ip ap : path)
      (w w' : World) (r : Res (option path)) :
  stage_inputs d img aud pose ip ap w = (r, w') ->
  staged_only w w' /\ (forall e, r <> Raise e).
Proof.
  rewrite stage_inputs_eq. intros H.
  destruct (save_outcome img _ _); [destruct (save_outcome aud _ _);
    [destruct (truthy pose); [destruct (save_outcome pose _ _) |] |] |];
    injection H as <- <-; (split; [| discriminate]);
    auto using staged_only_refl, staged_only_step.
Qed.

Lemma job_body_eq (img aud prompt np size steps cfg seed pose : pyval)
      (d : path) (w : World) :
  job_body env img aud prompt np size steps cfg seed pose d w =
    match detect_image_ext img with
    | inr e => (Raise e, w)
    | inl iext =>
        match detect_audio_ext aud with
        | inr e => (Raise e, w)
        | inl aext =>
            match stage_inputs d img aud pose
                    (d ++ "/" ++ "input" ++ iext) (d ++ "/" ++ "input" ++ aext) w with
            | (Next pp, w1) =>
                match build_cmd env d (d ++ "/" ++ "input" ++ iext)
                        (d ++ "/" ++ "input" ++ aext)
                        size steps cfg prompt np seed pp with
                | inr e => (Raise e, w1)
                | inl cmd => run_and_collect env cmd d w1
                end
            | (Return v, w1) => (Return v, w1)
            | (Raise e, w1) => (Raise e, w1)
            end
        end
    end.
Proof.
  unfold job_body, bind, eval.
  destruct (detect_image_ext img); [| reflexivity].
  destruct (detect_audio_ext aud); [| reflexivity].
  cbn [ret].
  destruct (stage_inputs _ _ _ _ _ _ _) as [[pp|v|e] w1]; try reflexivity.
  destruct (build_cmd _ _ _ _ _ _ _ _ _ _ _); reflexivity.
Qed.

(** A request with both required fields: the scratch directory is made,
    the body runs, and the directory is removed whatever the body did. *)
Lemma handler_process (job inp : dict) (w : World) :
  dict_get "input" job = Some (PDict inp) ->
  dict_mem "image_base64" inp = true ->
  dict_mem "audio_base64" inp = true ->
  handler env job w =
    let d := tmp_name env (w_files w) (w_dirs w) in
    let '(r, w2) :=
      job_body env
        (dict_get_default "image_base64" PNone inp)
        (dict_get_default "audio_base64" PNone inp)
        (dict_get_default "prompt" (PStr "") inp)
        (negative_prompt_of inp)
        (dict_get_default "size" (PStr (DEFAULT_SIZE env)) inp)
        (dict_get_default "steps" (PInt (DEFAULT_STEPS env)) inp)
        (dict_get_default "cfg" (PFloat five) inp)
        (seed_of inp)
        (dict_get_default "pose_video_base64" PNone inp)
        d (enter_tempdir d w) in
    (as_outcome r, rmtree d w2).
Proof.
  intros Hin Himg Haud.
  unfold handler, handler_stmt. rewrite Hin, Himg, Haud. cbn [negb].
  unfold process, TemporaryDirectory, enter_tempdir, negative_prompt_of, seed_of.
  cbn zeta.
  destruct (job_body _ _ _ _ _ _ _ _ _ _ _ _) as [r w2]. reflexivity.
Qed.

(** Every request is either refused by validation, the world untouched,
    or has both required fields. *)
Lemma handler_validation (job : dict) (w : World) :
  (exists dft, has_defect job dft
               /\ handler env job w = (Returned (error_result (defect_message dft)), w))
  \/ (exists inp, dict_get "input" job = Some (PDict inp)
                  /\ dict_mem "image_base64" inp = true
                  /\ dict_mem "audio_base64" inp = true).
Proof.
  unfold handler, handler_stmt.
  destruct (dict_get "input" job) as [v|] eqn:Hin.
  2:{ left. exists NoInputMapping. split; [| reflexivity].
      intros inp. rewrite Hin. discriminate. }
  destruct v;
    try (left; exists NoInputMapping; split;
         [intros inp; rewrite Hin; discriminate | reflexivity]).
  rename d into inp.
  destruct (dict_mem "image_base64" inp) eqn:Himg.
  2:{ left. exists NoImage. split; [| reflexivity].
      exists inp. split; [exact Hin | now apply dict_mem_false]. }
  destruct (dict_mem "audio_base64" inp) eqn:Haud.
  2:{ left. exists NoAudio. split; [| reflexivity].
      exists inp. split; [exact Hin | now apply dict_mem_false]. }
  right. exists inp. auto.
Qed.

(** The three ways a call can go: refused by validation; left before the
    command was run (an exception raised by a type error, or a decode
    failure reported), with only files written; or the command was built
    and handed to [run_and_collect] in a world where only files were
    written. In the last two the scratch directory [d] is removed at the
    end. *)
Lemma handler_paths (job : dict) (w : World) :
  (exists dft, has_defect job dft
               /\ handler env job w = (Returned (error_result (defect_message dft)), w))
  \/ (exists d w1 r,
        staged_only (enter_tempdir d w) w1
        /\ handler env job w = (r, rmtree d w1)
        /\ ((exists e, r = Raised e) \/ (exists msg, r = Returned (error_result msg))))
  \/ (exists inp d w1 cmd ip ap pp,
        dict_get "input" job = Some (PDict inp)
        /\ staged_only (enter_tempdir d w) w1
        /\ build_cmd env d ip ap
             (dict_get_default "size" (PStr (DEFAULT_SIZE env)) inp)
             (dict_get_default "steps" (PInt (DEFAULT_STEPS env)) inp)
             (dict_get_default "cfg" (PFloat five) inp)
             (dict_get_default "prompt" (PStr "") inp)
             (negative_prompt_of inp) (seed_of inp) pp = inl cmd
        /\ (pp = None \/ pp = Some (d ++ "/" ++ "pose.mp4"))
        /\ (truthy (dict_get_default "pose_video_base64" PNone inp) = false -> pp = None)
        /\ handler env job w =
             (let '(r, w2) := run_and_collect env cmd d w1 in (as_outcome r, rmtree d w2))).
Proof.
  destruct (handler_validation job w) as [Hbad | (inp & Hin & Himg & Haud)];
    [left; exact Hbad | right].
  rewrite (handler_process job inp w Hin Himg Haud). cbn zeta.
  set (d := tmp_name env (w_files w) (w_dirs w)).
  rewrite job_body_eq.
  destruct (detect_image_ext _) as [iext|e].
  2:{ left. exists d, (enter_tempdir d w), (Raised e).
      split; [apply staged_only_refl | split; [reflexivity | left; eauto]]. }
  destruct (detect_audio_ext _) as [aext|e].
  2:{ left. exists d, (enter_tempdir d w), (Raised e).
      split; [apply staged_only_refl | split; [reflexivity | left; eauto]]. }
  destruct (stage_inputs _ _ _ _ _ _ _) as [r w1] eqn:Hstage.
  pose proof (stage_inputs_frame _ _ _ _ _ _ _ _ _ Hstage) as [Hfr Hnr].
  rewrite stage_inputs_eq in Hstage.
  destruct r as [pp|v|e].
  - destruct (build_cmd _ _ _ _ _ _ _ _ _ _ _) as [cmd|e] eqn:Hcmd.
    + right. exists inp, d, w1, cmd, (d ++ "/" ++ "input" ++ iext),
        (d ++ "/" ++ "input" ++ aext), pp.
      split; [exact Hin |]. split; [exact Hfr |]. split; [exact Hcmd |].
      split; [| split; [| reflexivity]].
      * destruct (save_outcome _ _ _); [| discriminate Hstage].
        destruct (save_outcome _ _ _); [| discriminate Hstage].
        destruct (truthy _).
        -- destruct (save_outcome _ _ _); [| discriminate Hstage].
           injection Hstage as <- _. now right.
        -- injection Hstage as <- _. now left.
      * intros Hf. rewrite Hf in Hstage.
        destruct (save_outcome _ _ _); [| discriminate Hstage].
        destruct (save_outcome _ _ _); [| discriminate Hstage].
        now injection Hstage as <- _.
    + left. exists d, w1, (Raised e).
      split; [exact Hfr | split; [reflexivity | left; eauto]].
  - left. exists d, w1, (Returned v).
    split; [exact Hfr | split; [reflexivity | right]].
    destruct (save_outcome _ _ _); [| injection Hstage as <- _; eauto].
    destruct (save_outcome _ _ _); [| injection Hstage as <- _; eauto].
    destruct (truthy _); [| discriminate Hstage].
    destruct (save_outcome _ _ _); [discriminate Hstage |].
    injection Hstage as <- _; eauto.
  - now elim (Hnr e).
Qed.

Lemma events_since_app (w w' : World) (evs : list event) :
  w_trace w' = (w_trace w ++ evs)%list -> events_since w w' = evs.
Proof.
  intros H. unfold events_since. rewrite H.
  rewrite skipn_app, skipn_all, Nat.sub_diag. reflexivity.
Qed.

Lemma fresh_pid_not_in (cs : list nat) : ~ In (fresh_pid cs) cs.
Proof.
  unfold fresh_pid. intros H.
  pose proof (list_max_le cs (list_max cs)) as [Hle _].
  specialize (Hle (Nat.le_refl _)).
  rewrite Forall_forall in Hle. specialize (Hle _ H). lia.
Qed.

Lemma remove_pid_not_in (pid : nat) (cs : list nat) :
  ~ In pid cs -> remove_pid pid cs = cs.
Proof.
  induction cs as [|c cs IH]; intros H; [reflexivity |].
  cbn. destruct (Nat.eqb_spec c pid) as [->|Hne].
  - elim H. now left.
  - cbn. f_equal. apply IH. intros Hin. apply H. now right.
Qed.

(** A child started and reaped leaves the table of children as it was. *)
Lemma remove_fresh_pid (cs : list nat) :
  remove_pid (fresh_pid cs) (fresh_pid cs :: cs) = cs.
Proof.
  cbn. rewrite Nat.eqb_refl. cbn.
  apply remove_pid_not_in, fresh_pid_not_in.
Qed.

(** [run_and_collect] always returns a job result, starts with the call to
    [subprocess.run], and leaves directories and children as they were. *)
Lemma run_and_collect_frame (cmd : list pyval) (d : path) (w : World) :
  exists v evs,
    fst (run_and_collect env cmd d w) = Return v
    /\ is_job_result v = true
    /\ w_trace (snd (run_and_collect env cmd d w))
       = (w_trace w ++ EvRun cmd 600 "/app" :: evs)%list
    /\ forallb is_child_event evs = true
    /\ w_children (snd (run_and_collect env cmd d w)) = w_children w
    /\ w_dirs (snd (run_and_collect env cmd d w)) = w_dirs w.
Proof.
  rewrite run_and_collect_eq. cbn zeta. unfold run_failure, error_result.
  destruct (argv_of cmd) as [argv|e].
  2:{ destruct (is_TimeoutExpired e); eexists; exists []; cbn; repeat split; auto. }
  destruct (child env argv "/app" (w_files w)) as [e|x].
  { destruct (is_TimeoutExpired e); eexists; exists []; cbn; repeat split; auto. }
  assert (Hch : remove_pid (fresh_pid (w_children w))
                  (fresh_pid (w_children w) :: w_children w) = w_children w)
    by apply remove_fresh_pid.
  set (pid := fresh_pid (w_children w)) in *.
  set (ex := EvExit pid (x_returncode x) (x_stdout x) (x_stderr x)).
  set (fl := EvFilesLeft pid (x_files x)).
  destruct (finishes_within 600 x);
    [destruct (x_garbled x) as [msg|];
     [| destruct (x_returncode x =? 0)%Z;
        [destruct (glob_mp4 (dir_order env) d (x_files x)) as [|p ps];
         [| destruct (file_contents p (x_files x))] |]] |].
  - eexists; exists [EvSpawn pid argv; fl; EvGarbled pid].
    cbn -[remove_pid fresh_pid]. rewrite <- !app_assoc.
    repeat split; auto.
  - eexists; exists [EvSpawn pid argv; fl; ex; EvGlob d []].
    cbn -[remove_pid fresh_pid]. rewrite <- !app_assoc.
    repeat split; auto.
  - eexists; exists [EvSpawn pid argv; fl; ex; EvGlob d (p :: ps); EvReadFile p].
    cbn -[remove_pid fresh_pid]. rewrite <- !app_assoc.
    repeat split; auto.
  - eexists; exists [EvSpawn pid argv; fl; ex; EvGlob d (p :: ps); EvReadFile p].
    cbn -[remove_pid fresh_pid]. rewrite <- !app_assoc.
    repeat split; auto.
  - eexists; exists [EvSpawn pid argv; fl; ex].
    cbn -[remove_pid fresh_pid]. rewrite <- !app_assoc.
    repeat split; auto.
  - eexists; exists [EvSpawn pid argv; fl; EvKill pid].
    cbn -[remove_pid fresh_pid]. rewrite <- !app_assoc.
    repeat split; auto.
Qed.

Lemma forallb_weaken {A} (p q : A -> bool) (l : list A) :
  (forall x, p x = true -> q x = true) ->
  forallb p l = true -> forallb q l = true.
Proof.
  intros Hpq. rewrite !forallb_forall. auto.
Qed.

Lemma staged_only_enter (d : path) (w w1 : World) :
  staged_only (enter_tempdir d w) w1 ->
  exists ws, w_trace w1 = (w_trace w ++ EvMkdtemp d :: ws)%list
             /\ forallb is_write ws = true
             /\ w_children w1 = w_children w
             /\ w_dirs w1 = d :: w_dirs w.
Proof.
  intros (Hc & Hd & ws & Ht & Hw). exists ws.
  cbn in Hc, Hd, Ht. rewrite <- app_assoc in Ht. auto.
Qed.

(** The life of the scratch directory: a call either leaves the world
    untouched, or makes one directory [d], works inside the block, and
    ends by removing [d]; the children are those it started with. *)
Lemma handler_lifecycle (job : dict) (w : World) :
  snd (handler env job w) = w
  \/ exists d w2 evs,
      snd (handler env job w) = rmtree d w2
      /\ w_trace w2 = (w_trace w ++ EvMkdtemp d :: evs)%list
      /\ forallb is_body_event evs = true
      /\ w_children w2 = w_children w.
Proof.
  destruct (handler_paths job w)
    as [(dft & _ & ->)
       | [(d & w1 & r & Hst & -> & _)
         | (inp & d & w1 & cmd & ip & ap & pp & _ & Hst & _ & _ & _ & ->)]].
  - now left.
  - right. apply staged_only_enter in Hst as (ws & Ht & Hw & Hc & _).
    exists d, w1, ws. repeat split; auto.
    revert Hw. apply forallb_weaken. now intros [].
  - right. apply staged_only_enter in Hst as (ws & Ht & Hw & Hc & _).
    destruct (run_and_collect_frame cmd d w1) as (v & evs & _ & _ & Ht2 & Hev & Hc2 & _).
    destruct (run_and_collect env cmd d w1) as [r w2]. cbn [snd] in *.
    exists d, w2, (ws ++ EvRun cmd 600 "/app" :: evs)%list.
    repeat split.
    + rewrite Ht2, Ht, <- app_assoc. reflexivity.
    + rewrite forallb_app. cbn.
      rewrite (forallb_weaken is_write is_body_event ws), (forallb_weaken is_child_event is_body_event evs);
        auto; now intros [].
    + congruence.
Qed.

End Stages.

(** ** The scratch directory *)

Lemma under_rmtree_files (d p : path) (w : World) :
  under d p = true -> lookup_file p (w_files (rmtree d w)) = None.
Proof.
  intros Hu. unfold rmtree. cbn [w_files log].
  induction (w_files w) as [|[q b] fs IH]; [reflexivity |].
  cbn. destruct (under d q) eqn:Hq; cbn.
  - exact IH.
  - destruct (String.eqb_spec p q) as [->|]; [congruence | exact IH].
Qed.

Lemma rmtree_dirs (d : path) (w : World) : ~ In d (w_dirs (rmtree d w)).
Proof.
  unfold rmtree. cbn [w_dirs log]. rewrite filter_In.
  intros [_ H]. now rewrite String.eqb_refl in H.
Qed.

Lemma rmtree_trace (d : path) (w : World) :
  w_trace (rmtree d w) = (w_trace w ++ [EvRmtree d])%list.
Proof. reflexivity. Qed.

(** C4. Whatever the request and whatever the external program does, a
    scratch directory created by a call is gone when the call ends, by
    [return] or by an exception: it is no directory of the final world and
    no file of the final world lies below it. *)
Theorem C4_scratch_removed (env : Env) (job : dict) (w : World) (d : path) :
  In (EvMkdtemp d) (events_since w (snd (handler env job w))) ->
  ~ In d (w_dirs (snd (handler env job w)))
  /\ (forall p, under d p = true ->
                lookup_file p (w_files (snd (handler env job w))) = None)
  /\ In (EvRmtree d) (events_since w (snd (handler env job w))).
Proof.
  intros Hin.
  destruct (handler_lifecycle env job w) as [Hw | (d' & w2 & evs & Hw & Ht & Hev & _)];
    rewrite Hw in *.
  - rewrite events_since_refl in Hin. contradiction.
  - assert (Hevs : events_since w (rmtree d' w2)
                   = (EvMkdtemp d' :: evs ++ [EvRmtree d'])%list).
    { apply events_since_app. rewrite rmtree_trace, Ht, <- app_assoc. reflexivity. }
    rewrite Hevs in *.
    assert (d = d') as ->.
    { destruct Hin as [[= ->] | Hin]; [reflexivity |].
      apply in_app_or in Hin as [Hin | [Hin | []]]; [| discriminate Hin].
      rewrite forallb_forall in Hev. apply Hev in Hin. discriminate Hin. }
    split; [apply rmtree_dirs |].
    split; [intros p Hp; now apply under_rmtree_files |].
    right. apply in_or_app. right. now left.
Qed.

Lemma C4_scratch_removed_witness :
  In (EvMkdtemp "/tmp/tmpk3x9")
     (events_since Fixture.w0 (snd (handler Fixture.env0 Fixture.good_job Fixture.w0)))
  /\ ~ In "/tmp/tmpk3x9"
         (w_dirs (snd (handler Fixture.env0 Fixture.good_job Fixture.w0)))
  /\ (forall p, under "/tmp/tmpk3x9" p = true ->
                lookup_file p
                  (w_files (snd (handler Fixture.env0 Fixture.good_job Fixture.w0))) = None)
  /\ In (EvRmtree "/tmp/tmpk3x9")
        (events_since Fixture.w0 (snd (handler Fixture.env0 Fixture.good_job Fixture.w0))).
Proof.
  assert (H : In (EvMkdtemp "/tmp/tmpk3x9")
                (events_since Fixture.w0
                   (snd (handler Fixture.env0 Fixture.good_job Fixture.w0)))).
  { vm_compute. left. reflexivity. }
  split; [exact H |].
  exact (C4_scratch_removed Fixture.env0 Fixture.good_job Fixture.w0 "/tmp/tmpk3x9" H).
Defined.

(** ** The deadline *)


(** Normalising the trace of a world built by the stages. *)
Ltac trace_of_world :=
  cbn [w_trace w_children w_files w_dirs w_orphans rmtree log reap kill exited
       garbled spawn set_children set_files set_dirs set_orphans staged
       enter_tempdir fst snd].

(** The events of a run whose trace extends that of [w] by a known list. *)
Ltac events_in H Ht :=
  erewrite (events_since_app _ _ _) in H;
  [| trace_of_world; rewrite Ht, <- ?app_assoc; cbn [app]; reflexivity].

Ltac events_in_goal Ht :=
  erewrite (events_since_app _ _ _);
  [| trace_of_world; rewrite Ht, <- ?app_assoc; cbn [app]; reflexivity].

(** The branches of a run that started: the output is not text, it exited
    0 and nothing, a readable file or an unreadable entry was listed, it
    exited with another code, or it ran past the deadline. *)
Ltac run_branches d x :=
  destruct (finishes_within 600 x);
  [destruct (x_garbled x) as [msg|];
   [| destruct (x_returncode x =? 0)%Z eqn:Hrc;
      [destruct (glob_mp4 _ d (x_files x)) as [|p ps];
       [| destruct (file_contents p (x_files x)) as [b|e']] |]] |].

(** An event that is neither the creation of the scratch directory nor a
    write can only come from the part of the trace after the staging. *)
Lemma in_after_staging (e : event) (d : path) (ws tl : list event) :
  forallb is_write ws = true ->
  is_write e = false ->
  is_body_event e = true ->
  In e (EvMkdtemp d :: ws ++ tl) -> In e tl.
Proof.
  intros Hw He Hb [H | H]; [subst e; discriminate Hb |].
  apply in_app_or in H as [H | H]; [| exact H].
  rewrite forallb_forall in Hw. apply Hw in H. congruence.
Qed.






(** ** Output collection *)

Lemma filter_none {A} (p : A -> bool) (l : list A) :
  (forall x, In x l -> p x = false) -> filter p l = [].
Proof.
  induction l as [|a l IH]; intros H; [reflexivity |].
  cbn. rewrite (H a) by now left. apply IH. intros x Hx. apply H. now right.
Qed.

(** A directory none of whose entries is named [*.mp4] has nothing for
    the pattern. *)
(** Listing in the file system's order loses and adds no name. *)
Lemma in_insert_by (before : string -> string -> bool) (n m : string) (l : list string) :
  In m (insert_by before n l) <-> m = n \/ In m l.
Proof.
  induction l as [|a l IH]; cbn.
  - intuition.
  - destruct (before n a); cbn; [intuition | rewrite IH; intuition].
Qed.

Lemma in_sort_by (before : string -> string -> bool) (m : string) (l : list string) :
  In m (sort_by before l) <-> In m l.
Proof.
  induction l as [|a l IH]; cbn; [reflexivity |].
  rewrite in_insert_by, IH. intuition.
Qed.






(** ** The command line *)

Lemma of_Z_to_Z (z : Z) : Str.to_Z (Str.of_Z z) = Some z.
Proof.
  unfold Str.to_Z, Str.of_Z.
  destruct z as [|p|p]; [reflexivity | |].
  - rewrite NilZero.isi.
    + cbn [option_map]. f_equal. apply (DecimalZ.of_to (Z.pos p)).
    + cbn. intros [= H]. now apply (DecimalPos.Unsigned.to_uint_nonnil p).
    + discriminate.
  - rewrite NilZero.isi.
    + cbn [option_map]. f_equal. apply (DecimalZ.of_to (Z.neg p)).
    + discriminate.
    + cbn. intros [= H]. now apply (DecimalPos.Unsigned.to_uint_nonnil p).
Qed.

(** [str] of an integer and of a float, when it does not raise. *)
Lemma py_str_int (env : Env) (z : Z) (s : string) :
  py_str env (PInt z) = inl s -> s = Str.of_Z z.
Proof.
  unfold py_str. destruct (str_error env (PInt z)); [discriminate |].
  now intros [= <-].
Qed.

Lemma py_str_float (env : Env) (f : spec_float) (s : string) :
  py_str env (PFloat f) = inl s -> s = py_repr env (PFloat f).
Proof.
  unfold py_str. destruct (str_error env (PFloat f)); [discriminate |].
  now intros [= <-].
Qed.

(** The options of a built command line: eight fixed ones, then the
    conditional ones in the order the handler appends them. The three
    texts are those [str] returned for the steps, the cfg scale and, when
    it is given, the seed. *)
Lemma build_cmd_options (env : Env) (d ip ap : path)
      (size steps cfg prompt np seed : pyval) (pp : option path) (cmd : list pyval) :
  build_cmd env d ip ap size steps cfg prompt np seed pp = inl cmd ->
  exists seed_given steps_text cfg_text seed_text,
    ge_zero seed = inl seed_given
    /\ py_str env steps = inl steps_text
    /\ py_str env cfg = inl cfg_text
    /\ (seed_given = true -> py_str env seed = inl seed_text)
    /\ cmd_options cmd =
         ([ (PStr "--task", PStr "s2v-14B");
            (PStr "--size", size);
            (PStr "--ckpt_dir", PStr (MODEL_DIR env));
            (PStr "--image", PStr ip);
            (PStr "--audio", PStr ap);
            (PStr "--output_dir", PStr d);
            (PStr "--sample_steps", PStr steps_text);
            (PStr "--cfg_scale", PStr cfg_text) ]
          ++ flag_if (truthy prompt) "--prompt" prompt
          ++ flag_if (truthy np) "--negative_prompt" np
          ++ flag_if seed_given "--seed" (PStr seed_text)
          ++ flag_if (OFFLOAD_MODEL env) "--offload_model" (PStr "True")
          ++ match pp with
             | Some p => [(PStr "--pose_video", PStr p)]
             | None => []
             end)%list.
Proof.
  unfold build_cmd, seed_tokens.
  destruct (py_str env steps) as [st|e]; [| discriminate].
  destruct (py_str env cfg) as [ct|e]; [| discriminate].
  destruct (ge_zero seed) as [[|]|e]; [| | discriminate].
  - destruct (py_str env seed) as [sd|e]; [| discriminate].
    intros [= <-]. exists true, st, ct, sd.
    split; [reflexivity |]. split; [reflexivity |]. split; [reflexivity |].
    split; [reflexivity |].
    destruct (truthy prompt), (truthy np), (OFFLOAD_MODEL env), pp; reflexivity.
  - intros [= <-]. exists false, st, ct, "".
    split; [reflexivity |]. split; [reflexivity |]. split; [reflexivity |].
    split; [discriminate |].
    destruct (truthy prompt), (truthy np), (OFFLOAD_MODEL env), pp; reflexivity.
Qed.

(** Nothing is lost when the command line is read as options: it is the
    interpreter, the script, and the tokens of its options. *)
Lemma build_cmd_shape (env : Env) (d ip ap : path)
      (size steps cfg prompt np seed : pyval) (pp : option path) (cmd : list pyval) :
  build_cmd env d ip ap size steps cfg prompt np seed pp = inl cmd ->
  cmd = PStr (sys_executable env) :: PStr "generate.py" :: unpairs (cmd_options cmd).
Proof.
  unfold build_cmd, seed_tokens.
  destruct (py_str env steps) as [st|e]; [| discriminate].
  destruct (py_str env cfg) as [ct|e]; [| discriminate].
  destruct (ge_zero seed) as [[|]|e]; [| | discriminate].
  - destruct (py_str env seed) as [sd|e]; [| discriminate].
    intros [= <-].
    destruct (truthy prompt), (truthy np), (OFFLOAD_MODEL env), pp; reflexivity.
  - intros [= <-].
    destruct (truthy prompt), (truthy np), (OFFLOAD_MODEL env), pp; reflexivity.
Qed.

(** Every call to [subprocess.run] made by the handler passes a command
    line built by [build_cmd] from the fields of the request, the 600
    second deadline, and the working directory [/app]. *)
Lemma handler_run_cmd (env : Env) (job : dict) (w : World)
      (cmd : list pyval) (t : N) (cwd : path) :
  In (EvRun cmd t cwd) (events_since w (snd (handler env job w))) ->
  t = 600%N /\ cwd = "/app"
  /\ exists inp d ip ap pp,
      dict_get "input" job = Some (PDict inp)
      /\ build_cmd env d ip ap
           (dict_get_default "size" (PStr (DEFAULT_SIZE env)) inp)
           (dict_get_default "steps" (PInt (DEFAULT_STEPS env)) inp)
           (dict_get_default "cfg" (PFloat five) inp)
           (dict_get_default "prompt" (PStr "") inp)
           (negative_prompt_of inp) (seed_of inp) pp = inl cmd
      /\ (truthy (dict_get_default "pose_video_base64" PNone inp) = false -> pp = None).
Proof.
  intros Hrun.
  destruct (handler_paths env job w)
    as [(dft & _ & Heq)
       | [(d & w1 & r & Hst & Heq & _)
         | (inp & d & w1 & cmd' & ip & ap & pp & Hin & Hst & Hcmd & _ & Hpose & Heq)]];
    rewrite Heq in *; clear Heq.
  - cbn [snd] in Hrun. rewrite events_since_refl in Hrun. contradiction.
  - exfalso. apply staged_only_enter in Hst as (ws & Ht & Hw & _ & _).
    cbn [snd] in Hrun. events_in Hrun Ht.
    apply in_after_staging in Hrun; auto.
    cbn in Hrun. intuition discriminate.
  - apply staged_only_enter in Hst as (ws & Ht & Hw & _ & _).
    destruct (run_and_collect_frame env cmd' d w1) as (v & evs & _ & _ & Ht2 & Hev & _ & _).
    destruct (run_and_collect env cmd' d w1) as [r w2]. cbn [snd] in *.
    erewrite (events_since_app _ _ _) in Hrun;
      [| rewrite rmtree_trace, Ht2, Ht, <- !app_assoc; cbn [app]; reflexivity].
    apply in_after_staging in Hrun; auto.
    destruct Hrun as [[= <- <- <-] | Hrun].
    + split; [reflexivity |]. split; [reflexivity |].
      exists inp, d, ip, ap, pp. auto.
    + exfalso. apply in_app_or in Hrun as [Hrun | [Hrun | []]]; [| discriminate Hrun].
      rewrite forallb_forall in Hev. apply Hev in Hrun. discriminate Hrun.
Qed.

Lemma seed_of_given (inp : dict) (v : pyval) :
  dict_get "seed" inp = Some v -> seed_of inp = v.
Proof.
  unfold seed_of, dict_get_default. now intros ->.
Qed.

(** C5. With an integer seed [z] in the request, every command line the
    handler runs has the option [--seed] exactly when [0 <= z], and its
    value is then the decimal rendering of [z] (which reads back as [z]). *)
Theorem C5_seed_argument (env : Env) (job inp : dict) (z : Z) (w : World)
        (cmd : list pyval) (t : N) (cwd : path) :
  dict_get "input" job = Some (PDict inp) ->
  dict_get "seed" inp = Some (PInt z) ->
  In (EvRun cmd t cwd) (events_since w (snd (handler env job w))) ->
  cmd_option "--seed" cmd
  = (if (0 <=? z)%Z then Some (PStr (Str.of_Z z)) else None)
  /\ Str.to_Z (Str.of_Z z) = Some z.
Proof.
  intros Hin Hseed Hrun.
  split; [| apply of_Z_to_Z].
  apply handler_run_cmd in Hrun as (_ & _ & inp' & d & ip & ap & pp & Hin' & Hcmd & _).
  assert (inp' = inp) as -> by congruence.
  rewrite (seed_of_given inp _ Hseed) in Hcmd.
  apply build_cmd_options in Hcmd as (g & st & ct & sd & Hg & _ & _ & Hsd & Hopts).
  cbn [ge_zero] in Hg. injection Hg as <-.
  unfold cmd_option. rewrite Hopts.
  destruct (0 <=? z)%Z.
  - rewrite (py_str_int env z sd (Hsd eq_refl)).
    destruct (truthy _), (truthy _), (OFFLOAD_MODEL env), pp; reflexivity.
  - destruct (truthy _), (truthy _), (OFFLOAD_MODEL env), pp; reflexivity.
Qed.

Lemma C5_seed_argument_witness :
  dict_get "input" Fixture.seeded_job
  = Some (PDict [("image_base64", PStr Fixture.jpeg_b64);
                 ("audio_base64", PStr Fixture.wav_b64); ("seed", PInt 42)])
  /\ In (EvRun Fixture.seeded_cmd 600 "/app")
        (events_since Fixture.w0
           (snd (handler Fixture.env0 Fixture.seeded_job Fixture.w0)))
  /\ cmd_option "--seed" Fixture.seeded_cmd = Some (PStr "42")
  /\ Str.to_Z (Str.of_Z 42) = Some 42%Z.
Proof.
  assert (H : In (EvRun Fixture.seeded_cmd 600 "/app")
                (events_since Fixture.w0
                   (snd (handler Fixture.env0 Fixture.seeded_job Fixture.w0)))).
  { vm_compute. auto 10. }
  split; [reflexivity |]. split; [exact H |].
  exact (C5_seed_argument Fixture.env0 Fixture.seeded_job _ 42 Fixture.w0
           Fixture.seeded_cmd 600 "/app" eq_refl eq_refl H).
Defined.

(** The claim as worded fails: a request that supplies an empty negative
    prompt is run without the [--negative_prompt] option. *)
Lemma C8_explicit_empty_negative_prompt :
  In (EvRun Fixture.bare_cmd 600 "/app")
     (events_since Fixture.w0 (snd (handler Fixture.env0 Fixture.bare_job Fixture.w0)))
  /\ cmd_option "--negative_prompt" Fixture.bare_cmd = None.
Proof.
  split; [vm_compute; auto 10 | reflexivity].
Qed.

(** C8, amended. Every command line the handler runs has the option
    [--negative_prompt] exactly when the negative prompt in force (the
    field of the request, or the built-in default when the request has no
    such field) is truthy, with that value; so a request without the field
    always gets the option, with the default text. *)
Theorem C8_negative_prompt (env : Env) (job inp : dict) (w : World)
        (cmd : list pyval) (t : N) (cwd : path) :
  dict_get "input" job = Some (PDict inp) ->
  In (EvRun cmd t cwd) (events_since w (snd (handler env job w))) ->
  cmd_option "--negative_prompt" cmd
  = (if truthy (negative_prompt_of inp) then Some (negative_prompt_of inp) else None)
  /\ (dict_get "negative_prompt" inp = None ->
      cmd_option "--negative_prompt" cmd
      = Some (PStr "blurry, low quality, distorted")).
Proof.
  intros Hin Hrun.
  apply handler_run_cmd in Hrun as (_ & _ & inp' & d & ip & ap & pp & Hin' & Hcmd & _).
  assert (inp' = inp) as -> by congruence.
  apply build_cmd_options in Hcmd as (g & st & ct & sd & _ & Hst & Hct & _ & Hopts).
  assert (Hgen : cmd_option "--negative_prompt" cmd
                 = (if truthy (negative_prompt_of inp)
                    then Some (negative_prompt_of inp) else None)).
  { unfold cmd_option. rewrite Hopts.
    destruct (truthy (dict_get_default "prompt" _ _)),
      (truthy (negative_prompt_of inp)), g, (OFFLOAD_MODEL env), pp; reflexivity. }
  split; [exact Hgen |].
  intros Hnone. rewrite Hgen.
  unfold negative_prompt_of, dict_get_default. rewrite Hnone. reflexivity.
Qed.

Lemma C8_negative_prompt_witness :
  dict_get "input" Fixture.good_job
  = Some (PDict [("image_base64", PStr Fixture.jpeg_b64);
                 ("audio_base64", PStr Fixture.wav_b64); ("steps", PInt 10)])
  /\ exists cmd,
      In (EvRun cmd 600 "/app")
         (events_since Fixture.w0 (snd (handler Fixture.env0 Fixture.good_job Fixture.w0)))
      /\ cmd_option "--negative_prompt" cmd
         = Some (PStr "blurry, low quality, distorted").
Proof.
  split; [reflexivity |].
  exists (map PStr Fixture.good_argv).
  assert (H : In (EvRun (map PStr Fixture.good_argv) 600 "/app")
                (events_since Fixture.w0
                   (snd (handler Fixture.env0 Fixture.good_job Fixture.w0)))).
  { vm_compute. auto 10. }
  split; [exact H |].
  exact (proj2 (C8_negative_prompt Fixture.env0 Fixture.good_job _ Fixture.w0
                  (map PStr Fixture.good_argv) 600 "/app" eq_refl H) eq_refl).
Defined.

(** ** The optional pose video *)

Lemma dict_get_remove_other (k k' : string) (d : dict) :
  String.eqb k k' = false -> dict_get k (dict_remove k' d) = dict_get k d.
Proof.
  intros Hk. induction d as [|[q v] d IH]; [reflexivity |].
  cbn. destruct (String.eqb_spec k' q) as [<-|Hq].
  - rewrite Hk. exact IH.
  - cbn. now rewrite IH.
Qed.

Lemma dict_get_remove_same (k : string) (d : dict) :
  dict_get k (dict_remove k d) = None.
Proof.
  induction d as [|[q v] d IH]; [reflexivity |].
  cbn. destruct (String.eqb k q) eqn:Hq; [exact IH |].
  cbn. now rewrite Hq.
Qed.

Lemma dict_get_default_remove_other (k k' : string) (dflt : pyval) (d : dict) :
  String.eqb k k' = false ->
  dict_get_default k dflt (dict_remove k' d) = dict_get_default k dflt d.
Proof.
  intros Hk. unfold dict_get_default. now rewrite dict_get_remove_other.
Qed.

Lemma dict_mem_remove_other (k k' : string) (d : dict) :
  String.eqb k k' = false -> dict_mem k (dict_remove k' d) = dict_mem k d.
Proof.
  intros Hk. unfold dict_mem. now rewrite dict_get_remove_other.
Qed.

(** A falsy pose value is staged like no value at all. *)
Lemma stage_inputs_falsy_pose (d : path) (img aud v : pyval) (ip ap : path) (w : World) :
  truthy v = false ->
  stage_inputs d img aud v ip ap w = stage_inputs d img aud PNone ip ap w.
Proof.
  intros Hv. rewrite !stage_inputs_eq, Hv. reflexivity.
Qed.

Lemma job_body_falsy_pose (env : Env)
      (img aud prompt np size steps cfg seed v : pyval) (d : path) (w : World) :
  truthy v = false ->
  job_body env img aud prompt np size steps cfg seed v d w
  = job_body env img aud prompt np size steps cfg seed PNone d w.
Proof.
  intros Hv. rewrite !job_body_eq.
  destruct (detect_image_ext img); [| reflexivity].
  destruct (detect_audio_ext aud); [| reflexivity].
  now rewrite (stage_inputs_falsy_pose _ _ _ v).
Qed.

Lemma handler_falsy_pose (env : Env) (job job' inp : dict) (v : pyval) (w : World) :
  dict_get "input" job = Some (PDict inp) ->
  dict_get "pose_video_base64" inp = Some v ->
  truthy v = false ->
  dict_get "input" job' = Some (PDict (dict_remove "pose_video_base64" inp)) ->
  handler env job w = handler env job' w.
Proof.
  intros Hin Hpose Hv Hin'.
  unfold handler, handler_stmt. rewrite Hin, Hin'.
  rewrite !dict_mem_remove_other by reflexivity.
  destruct (dict_mem "image_base64" inp); [| reflexivity].
  destruct (dict_mem "audio_base64" inp); [| reflexivity].
  cbn [negb]. unfold process, TemporaryDirectory.
  assert (E1 : dict_get_default "pose_video_base64" PNone inp = v)
    by (unfold dict_get_default; now rewrite Hpose).
  assert (E2 : dict_get_default "pose_video_base64" PNone
                 (dict_remove "pose_video_base64" inp) = PNone)
    by (unfold dict_get_default; now rewrite dict_get_remove_same).
  rewrite E1, E2.
  rewrite !dict_get_default_remove_other by reflexivity.
  rewrite (job_body_falsy_pose env _ _ _ _ _ _ _ _ v) by exact Hv.
  reflexivity.
Qed.

(** The files staging writes: the image, the audio, and the pose video
    when its value is truthy. *)
Lemma stage_inputs_writes (d : path) (img aud pose : pyval) (ip ap : path)
      (w w1 : World) (r : Res (option path)) :
  stage_inputs d img aud pose ip ap w = (r, w1) ->
  exists ps,
    w_trace w1 = (w_trace w ++ map EvWriteFile ps)%list
    /\ forall p, In p ps ->
         p = ip \/ p = ap \/ (truthy pose = true /\ p = d ++ "/" ++ "pose.mp4").
Proof.
  rewrite stage_inputs_eq. intros H.
  destruct (save_outcome img _ _) as [bi|e].
  2:{ injection H as _ <-. exists []. cbn. rewrite app_nil_r. now split. }
  destruct (save_outcome aud _ _) as [ba|e].
  2:{ injection H as _ <-. exists [ip]. cbn. split; [reflexivity |].
      intros p [<- | []]. now left. }
  destruct (truthy pose) eqn:Hp.
  2:{ injection H as _ <-. exists [ip; ap]. cbn. rewrite <- app_assoc.
      split; [reflexivity |]. intros p [<- | [<- | []]]; auto. }
  destruct (save_outcome pose _ _) as [bp|e]; injection H as _ <-.
  - exists [ip; ap; d ++ "/" ++ "pose.mp4"]. cbn. rewrite <- !app_assoc.
    split; [reflexivity |]. intros p [<- | [<- | [<- | []]]]; auto.
  - exists [ip; ap]. cbn. rewrite <- app_assoc.
    split; [reflexivity |]. intros p [<- | [<- | []]]; auto.
Qed.

Lemma in_map_write (p : path) (ps : list path) :
  In (EvWriteFile p) (map EvWriteFile ps) -> In p ps.
Proof.
  rewrite in_map_iff. intros (q & [= ->] & H). exact H.
Qed.

(** Every file the handler writes is one of the staged inputs, inside the
    scratch directory it made. *)
Lemma handler_writes (env : Env) (job : dict) (w : World) (p : path) :
  In (EvWriteFile p) (events_since w (snd (handler env job w))) ->
  exists inp d,
    dict_get "input" job = Some (PDict inp)
    /\ In (EvMkdtemp d) (events_since w (snd (handler env job w)))
    /\ ((exists iext,
           detect_image_ext (dict_get_default "image_base64" PNone inp) = inl iext
           /\ p = d ++ "/" ++ "input" ++ iext)
        \/ (exists aext,
              detect_audio_ext (dict_get_default "audio_base64" PNone inp) = inl aext
              /\ p = d ++ "/" ++ "input" ++ aext)
        \/ (truthy (dict_get_default "pose_video_base64" PNone inp) = true
            /\ p = d ++ "/" ++ "pose.mp4")).
Proof.
  destruct (handler_validation env job w) as [(dft & _ & ->) | (inp & Hin & Himg & Haud)].
  { cbn [snd]. rewrite events_since_refl. contradiction. }
  rewrite (handler_process env job inp w Hin Himg Haud). cbn zeta.
  set (d := tmp_name env (w_files w) (w_dirs w)).
  rewrite job_body_eq.
  destruct (detect_image_ext _) as [iext|e] eqn:Hi.
  2:{ cbn [snd]. rewrite (events_since_app _ _ [EvMkdtemp d; EvRmtree d]).
      - cbn. intuition discriminate.
      - cbn. now rewrite <- app_assoc. }
  destruct (detect_audio_ext _) as [aext|e] eqn:Ha.
  2:{ cbn [snd]. rewrite (events_since_app _ _ [EvMkdtemp d; EvRmtree d]).
      - cbn. intuition discriminate.
      - cbn. now rewrite <- app_assoc. }
  destruct (stage_inputs _ _ _ _ _ _ _) as [r w1] eqn:Hstage.
  apply stage_inputs_writes in Hstage as (ps & Ht & Hps).
  cbn [w_trace enter_tempdir log] in Ht. rewrite <- app_assoc in Ht. cbn [app] in Ht.
  assert (Hgoal : forall w2 tl,
             w_trace w2 = (w_trace w1 ++ tl)%list ->
             (forall q, ~ In (EvWriteFile q) tl) ->
             In (EvWriteFile p) (events_since w (rmtree d w2)) ->
             exists inp0 d0,
               dict_get "input" job = Some (PDict inp0)
               /\ In (EvMkdtemp d0) (events_since w (rmtree d w2))
               /\ ((exists iext0,
                      detect_image_ext (dict_get_default "image_base64" PNone inp0)
                      = inl iext0 /\ p = d0 ++ "/" ++ "input" ++ iext0)
                   \/ (exists aext0,
                         detect_audio_ext (dict_get_default "audio_base64" PNone inp0)
                         = inl aext0 /\ p = d0 ++ "/" ++ "input" ++ aext0)
                   \/ (truthy (dict_get_default "pose_video_base64" PNone inp0) = true
                       /\ p = d0 ++ "/" ++ "pose.mp4"))).
  { intros w2 tl Ht2 Htl.
    rewrite (events_since_app _ _
               (EvMkdtemp d :: map EvWriteFile ps ++ tl ++ [EvRmtree d])).
    2:{ rewrite rmtree_trace, Ht2, Ht, <- !app_assoc. reflexivity. }
    intros [H | H]; [discriminate H |].
    exists inp, d. split; [exact Hin |]. split; [now left |].
    apply in_app_or in H as [H | H].
    - apply in_map_write, Hps in H as [-> | [-> | [Hp ->]]]; eauto.
    - apply in_app_or in H as [H | [H | []]]; [| discriminate H].
      now elim (Htl p). }
  destruct r as [pp|v|e].
  - destruct (build_cmd _ _ _ _ _ _ _ _ _ _ _) as [cmd|e].
    + destruct (run_and_collect_frame env cmd d w1)
        as (v & evs & _ & _ & Ht2 & Hev & _ & _).
      destruct (run_and_collect env cmd d w1) as [r w2]. cbn [snd] in *.
      apply (Hgoal w2 (EvRun cmd 600 "/app" :: evs) Ht2).
      intros q [H | H]; [discriminate H |].
      rewrite forallb_forall in Hev. apply Hev in H. discriminate H.
    + cbn [snd]. apply (Hgoal w1 []); [now rewrite app_nil_r | now intros q].
  - cbn [snd]. apply (Hgoal w1 []); [now rewrite app_nil_r | now intros q].
  - cbn [snd]. apply (Hgoal w1 []); [now rewrite app_nil_r | now intros q].
Qed.

Lemma append_inj_l (d a b : string) : d ++ a = d ++ b -> a = b.
Proof.
  induction d as [|c d IH]; cbn; [auto |].
  intros [= H]. auto.
Qed.

(** A call makes at most one scratch directory. *)
Lemma mkdtemp_unique (env : Env) (job : dict) (w : World) (d1 d2 : path) :
  In (EvMkdtemp d1) (events_since w (snd (handler env job w))) ->
  In (EvMkdtemp d2) (events_since w (snd (handler env job w))) ->
  d1 = d2.
Proof.
  destruct (handler_lifecycle env job w) as [-> | (d & w2 & evs & -> & Ht & Hev & _)].
  - rewrite events_since_refl. contradiction.
  - rewrite (events_since_app _ _ (EvMkdtemp d :: evs ++ [EvRmtree d])).
    2:{ rewrite rmtree_trace, Ht, <- app_assoc. reflexivity. }
    assert (Hone : forall d', In (EvMkdtemp d') (EvMkdtemp d :: evs ++ [EvRmtree d])
                              -> d' = d).
    { intros d' [[= ->] | H]; [reflexivity |].
      apply in_app_or in H as [H | [H | []]]; [| discriminate H].
      rewrite forallb_forall in Hev. apply Hev in H. discriminate H. }
    intros H1 H2. apply Hone in H1, H2. congruence.
Qed.

(** C10. A request whose pose-video field holds a falsy value is handled
    exactly like the same request without the field: same result, same
    final world and trace; no file [pose.mp4] is written into the scratch
    directory and no command line has the option [--pose_video]. *)
Theorem C10_falsy_pose_is_absent (env : Env) (job job' inp : dict) (v : pyval) (w : World) :
  dict_get "input" job = Some (PDict inp) ->
  dict_get "pose_video_base64" inp = Some v ->
  truthy v = false ->
  dict_get "input" job' = Some (PDict (dict_remove "pose_video_base64" inp)) ->
  handler env job w = handler env job' w
  /\ (forall d, In (EvMkdtemp d) (events_since w (snd (handler env job w))) ->
                ~ In (EvWriteFile (d ++ "/" ++ "pose.mp4"))
                     (events_since w (snd (handler env job w))))
  /\ (forall cmd t cwd,
         In (EvRun cmd t cwd) (events_since w (snd (handler env job w))) ->
         cmd_option "--pose_video" cmd = None).
Proof.
  intros Hin Hpose Hv Hin'.
  assert (Hfalsy : truthy (dict_get_default "pose_video_base64" PNone inp) = false).
  { unfold dict_get_default. now rewrite Hpose. }
  split; [now apply (handler_falsy_pose env job job' inp v) |].
  split.
  - intros d Hd Hw.
    apply handler_writes in Hw
      as (inp' & d' & Hin2 & Hd' & [(x & _ & Hp) | [(x & _ & Hp) | (Ht & _)]]).
    + rewrite (mkdtemp_unique env job w d d' Hd Hd') in Hp.
      apply append_inj_l in Hp. discriminate Hp.
    + rewrite (mkdtemp_unique env job w d d' Hd Hd') in Hp.
      apply append_inj_l in Hp. discriminate Hp.
    + assert (inp' = inp) as -> by congruence. congruence.
  - intros cmd t cwd Hrun.
    apply handler_run_cmd in Hrun
      as (_ & _ & inp' & d & ip & ap & pp & Hin2 & Hcmd & Hpp).
    assert (inp' = inp) as -> by congruence.
    rewrite (Hpp Hfalsy) in Hcmd.
    apply build_cmd_options in Hcmd as (g & st & ct & sd & _ & Hst & Hct & _ & Hopts).
    unfold cmd_option. rewrite Hopts.
    destruct (truthy (dict_get_default "prompt" _ _)),
      (truthy (negative_prompt_of inp)), g, (OFFLOAD_MODEL env); reflexivity.
Qed.

Lemma C10_falsy_pose_is_absent_witness :
  let inp := [("image_base64", PStr Fixture.jpeg_b64);
              ("audio_base64", PStr Fixture.wav_b64);
              ("pose_video_base64", PStr "")] in
  let inp' := [("image_base64", PStr Fixture.jpeg_b64);
               ("audio_base64", PStr Fixture.wav_b64)] in
  truthy (PStr "") = false
  /\ dict_remove "pose_video_base64" inp = inp'
  /\ handler Fixture.env0 (Fixture.job_of inp) Fixture.w0
     = handler Fixture.env0 (Fixture.job_of inp') Fixture.w0.
Proof.
  intros inp inp'.
  split; [reflexivity |]. split; [reflexivity |].
  exact (proj1 (C10_falsy_pose_is_absent Fixture.env0 (Fixture.job_of inp)
                  (Fixture.job_of inp') inp (PStr "") Fixture.w0
                  eq_refl eq_refl eq_refl eq_refl)).
Defined.

(** ** Decode failures *)

Lemma detect_image_ext_str (s : string) :
  exists ext, detect_image_ext (PStr s) = inl ext.
Proof.
  unfold detect_image_ext. cbn [Py.startswith].
  destruct (Str.startswith s "data:image/png"); [eauto |].
  destruct (Str.startswith s "data:image/webp"); eauto.
Qed.


Ltac events_of_world H :=
  erewrite (events_since_app _ _ _) in H;
  [| trace_of_world; rewrite <- ?app_assoc; cbn [app]; reflexivity].






(** ** The result shapes *)

Lemma error_result_is_job_result (msg : string) :
  is_job_result (error_result msg) = true.
Proof. reflexivity. Qed.

Lemma detect_audio_ext_container (v : pyval) :
  is_container v = true -> exists ext, detect_audio_ext v = inl ext.
Proof.
  unfold detect_audio_ext.
  destruct v; try discriminate; intros _; cbn [Py.contains].
  - destruct (Str.contains "audio/mp3" s); [eauto |].
    destruct (Str.contains "audio/mpeg" s); eauto.
  - destruct (existsb _ l); [eauto |].
    destruct (existsb _ l); eauto.
  - destruct (dict_mem "audio/mp3" d); [eauto |].
    destruct (dict_mem "audio/mpeg" d); eauto.
Qed.

Lemma ge_zero_number (v : pyval) :
  is_number v = true -> exists b, ge_zero v = inl b.
Proof.
  destruct v; try discriminate; cbn; eauto.
Qed.

(** The claim as worded fails: an image that is not a string makes
    [startswith] raise outside every [try], and the exception leaves the
    handler. So does [str(steps)] for steps of 4301 digits, after both
    payloads were staged. *)
Lemma C1_non_string_image_raises :
  handler Fixture.env0 Fixture.int_image_job Fixture.w0
  = (Raised (mkExn AttributeError "'int' object has no attribute 'startswith'"),
     mkWorld [] [] [] [] [EvMkdtemp "/tmp/tmpk3x9"; EvRmtree "/tmp/tmpk3x9"])
  /\ fst (handler Fixture.env0 Cases.huge_steps_job Fixture.w0)
     = Raised (mkExn ValueError
         "Exceeds the limit (4300 digits) for integer string conversion; use sys.set_int_max_str_digits() to increase the limit").
Proof. split; [reflexivity | vm_compute; reflexivity]. Qed.

Lemma py_str_defined (env : Env) (v : pyval) :
  str_error env v = None -> exists s, py_str env v = inl s.
Proof.
  intros H. unfold py_str. rewrite H. eauto.
Qed.

(** C1, amended. For every job whose image (if any) is a string, whose
    audio (if any) is a string or another container, whose seed (if any)
    is a number, and whose steps, cfg scale and seed hold no integer too
    long to be written out, the handler returns, and what it returns is
    exactly one of [{"video": <string>}] and [{"error": <string>, ...}]:
    no exception leaves it, whatever the other fields hold and whatever
    the file system and the external program do. *)
Theorem C1_job_result (env : Env) (job : dict) (w : World) :
  well_typed job ->
  printable env job ->
  exists v, fst (handler env job w) = Returned v /\ is_job_result v = true.
Proof.
  intros Hty Hpr.
  destruct (handler_validation env job w) as [(dft & _ & ->) | (inp & Hin & Himg & Haud)].
  { eexists. split; [reflexivity | apply error_result_is_job_result]. }
  destruct (Hty inp Hin) as (Hi & Ha & Hs).
  destruct (Hpr inp Hin) as (Psteps & Pcfg & Pseed).
  rewrite (handler_process env job inp w Hin Himg Haud). cbn zeta.
  rewrite job_body_eq.
  apply dict_mem_true in Himg as [vi Hvi]. apply dict_mem_true in Haud as [va Hva].
  assert (Ei : dict_get_default "image_base64" PNone inp = vi)
    by (unfold dict_get_default; now rewrite Hvi).
  assert (Ea : dict_get_default "audio_base64" PNone inp = va)
    by (unfold dict_get_default; now rewrite Hva).
  rewrite Ei, Ea.
  specialize (Hi vi Hvi). destruct vi as [| | | |si| |]; try discriminate Hi.
  destruct (detect_image_ext_str si) as [iext ->].
  destruct (detect_audio_ext_container va (Ha va Hva)) as [aext ->].
  destruct (stage_inputs _ _ _ _ _ _ _) as [r w1] eqn:Hstage.
  pose proof (stage_inputs_frame _ _ _ _ _ _ _ _ _ Hstage) as [_ Hnr].
  rewrite stage_inputs_eq in Hstage.
  destruct r as [pp|v|e]; [| | now elim (Hnr e)].
  - assert (Hseed : exists b, ge_zero (seed_of inp) = inl b).
    { unfold seed_of, dict_get_default.
      destruct (dict_get "seed" inp) as [vs|] eqn:Hvs.
      - apply ge_zero_number. now apply Hs.
      - cbn. eauto. }
    destruct Hseed as [b Hb].
    destruct (py_str_defined env _ Psteps) as [st Hst].
    destruct (py_str_defined env _ Pcfg) as [ct Hct].
    destruct (py_str_defined env _ Pseed) as [sd Hsd].
    unfold build_cmd, seed_tokens. rewrite Hst, Hct, Hb.
    destruct b; rewrite ?Hsd;
      match goal with
      | |- context [run_and_collect env ?c ?d ?w] =>
          destruct (run_and_collect_frame env c d w) as (v & evs & Hv & Hjr & _);
          destruct (run_and_collect env c d w) as [r w2]
      end;
      cbn [fst] in Hv; subst r; exists v; (split; [reflexivity | exact Hjr]).
  - cbn [fst as_outcome]. exists v. split; [reflexivity |].
    destruct (save_outcome (PStr si) _ _);
      [| injection Hstage as <- _; apply error_result_is_job_result].
    destruct (save_outcome va _ _);
      [| injection Hstage as <- _; apply error_result_is_job_result].
    destruct (truthy _); [| discriminate Hstage].
    destruct (save_outcome _ _ _); [discriminate Hstage |].
    injection Hstage as <- _. apply error_result_is_job_result.
Qed.

Lemma C1_job_result_witness :
  well_typed Fixture.good_job
  /\ printable Fixture.env0 Fixture.good_job
  /\ fst (handler Fixture.env0 Fixture.good_job Fixture.w0)
     = Returned (PDict [("video", PStr "AAECAwQFBgcICQ==")])
  /\ exists v, fst (handler Fixture.env0 Fixture.good_job Fixture.w0) = Returned v
               /\ is_job_result v = true.
Proof.
  assert (H : well_typed Fixture.good_job).
  { intros inp [= <-]. cbn.
    repeat split; intros v Hv; try discriminate Hv;
      injection Hv as <-; reflexivity. }
  assert (H' : printable Fixture.env0 Fixture.good_job).
  { intros inp [= <-]. repeat split; reflexivity. }
  split; [exact H |]. split; [exact H' |]. split; [reflexivity |].
  exact (C1_job_result Fixture.env0 Fixture.good_job Fixture.w0 H H').
Defined.

(** ** File extensions *)

Lemma prefix_app_l (a b s : string) :
  String.prefix (a ++ b) s = true -> String.prefix a s = true.
Proof.
  revert s. induction a as [|c a IH]; intros s; [now destruct s |].
  destruct s as [|c' s]; cbn; [auto |].
  destruct (ascii_dec c c'); [apply IH | auto].
Qed.

(** The image extension follows the MIME type of the header. *)
Lemma image_ext_png (rest : string) :
  detect_image_ext (PStr ("data:image/png" ++ rest)) = inl ".png".
Proof. now destruct rest. Qed.

Lemma image_ext_webp (rest : string) :
  detect_image_ext (PStr ("data:image/webp" ++ rest)) = inl ".webp".
Proof. now destruct rest. Qed.

Lemma image_ext_jpeg (rest : string) :
  detect_image_ext (PStr ("data:image/jpeg" ++ rest)) = inl ".jpg"
  /\ detect_image_ext (PStr ("data:image/jpg" ++ rest)) = inl ".jpg".
Proof. split; reflexivity. Qed.

(** Without a header the image is staged as [.jpg]. *)
Lemma image_ext_headerless (s : string) :
  Str.startswith s "data:" = false -> detect_image_ext (PStr s) = inl ".jpg".
Proof.
  intros H. unfold detect_image_ext. cbn [Py.startswith].
  destruct (Str.startswith s "data:image/png") eqn:Hp.
  { apply (prefix_app_l "data:" "image/png") in Hp.
    unfold Str.startswith in H. congruence. }
  destruct (Str.startswith s "data:image/webp") eqn:Hw.
  { apply (prefix_app_l "data:" "image/webp") in Hw.
    unfold Str.startswith in H. congruence. }
  reflexivity.
Qed.

(** What the audio extension really depends on: the two MIME names are
    searched in the whole text, the encoded body included. *)
Lemma audio_ext_searches_body (s : string) :
  detect_audio_ext (PStr s)
  = inl (if Str.contains "audio/mp3" s || Str.contains "audio/mpeg" s
         then ".mp3" else ".wav").
Proof.
  unfold detect_audio_ext. cbn [Py.contains].
  destruct (Str.contains "audio/mp3" s); [reflexivity |].
  destruct (Str.contains "audio/mpeg" s); reflexivity.
Qed.

(** An audio header naming [mp3] or [mpeg] gives [.mp3]. *)
Lemma audio_ext_mp3 (rest : string) :
  detect_audio_ext (PStr ("data:audio/mp3" ++ rest)) = inl ".mp3"
  /\ detect_audio_ext (PStr ("data:audio/mpeg" ++ rest)) = inl ".mp3".
Proof.
  rewrite !audio_ext_searches_body. split.
  - assert (H : Str.contains "audio/mp3" ("data:audio/mp3" ++ rest) = true)
      by now destruct rest.
    now rewrite H.
  - assert (H : Str.contains "audio/mpeg" ("data:audio/mpeg" ++ rest) = true)
      by now destruct rest.
    now rewrite H, orb_true_r.
Qed.

(** C6, at its failing inputs. The payload [audio/mp3AAA] is valid base64
    and has no header, yet it is staged as [input.mp3] and not with the
    default [.wav]; the same text behind a correct [audio/wav] header is
    staged as [input.mp3] too. *)
Theorem C6_audio_extension_from_body :
  Str.startswith "audio/mp3AAA" "data:" = false
  /\ decode_payload (PStr "audio/mp3AAA")
     = inl [Byte.x6a; Byte.xe7; Byte.x62; Byte.xa3; Byte.xf9; Byte.xa9;
            Byte.xdc; Byte.x00; Byte.x00]
  /\ detect_audio_ext (PStr "audio/mp3AAA") = inl ".mp3"
  /\ filter is_write
       (events_since Fixture.w0
          (snd (handler Fixture.env0 Fixture.headerless_audio_job Fixture.w0)))
     = [EvWriteFile "/tmp/tmpk3x9/input.jpg"; EvWriteFile "/tmp/tmpk3x9/input.mp3"]
  /\ detect_audio_ext (PStr "data:audio/wav;base64,audio/mp3AAA") = inl ".mp3"
  /\ filter is_write
       (events_since Fixture.w0
          (snd (handler Fixture.env0 Fixture.wav_header_audio_job Fixture.w0)))
     = [EvWriteFile "/tmp/tmpk3x9/input.jpg"; EvWriteFile "/tmp/tmpk3x9/input.mp3"].
Proof.
  repeat split; vm_compute; reflexivity.
Qed.

(** ** Scenarios *)

(** The scenario of the specification: two valid payloads, a program that
    writes ten bytes to [out.mp4] and exits 0. *)
Example scenario_success :
  fst (handler Fixture.env0 Fixture.good_job Fixture.w0)
  = Returned (PDict [("video", PStr (b64encode Fixture.ten_bytes))])
  /\ events_since Fixture.w0 (snd (handler Fixture.env0 Fixture.good_job Fixture.w0))
     = [EvMkdtemp "/tmp/tmpk3x9";
        EvWriteFile "/tmp/tmpk3x9/input.jpg"; EvWriteFile "/tmp/tmpk3x9/input.wav";
        EvRun (map PStr Fixture.good_argv) 600 "/app";
        EvSpawn 1 Fixture.good_argv;
        EvFilesLeft 1 (Cases.staged_good
                         ++ [("/tmp/tmpk3x9/out.mp4", Fixture.ten_bytes)])%list;
        EvExit 1 0 "done" "";
        EvGlob "/tmp/tmpk3x9" ["/tmp/tmpk3x9/out.mp4"];
        EvReadFile "/tmp/tmpk3x9/out.mp4"; EvRmtree "/tmp/tmpk3x9"].
Proof. split; reflexivity. Qed.

(** A non-zero exit code is reported with the program's stderr and stdout. *)
Example scenario_nonzero_exit :
  fst (handler (Fixture.env_with Fixture.fails) Fixture.good_job Fixture.w0)
  = Returned (PDict [("error", PStr "Generation failed: CUDA out of memory");
                     ("stdout", PStr "")]).
Proof. reflexivity. Qed.

(** The staged pose video is itself a [*.mp4] file of the scratch
    directory: when the program exits 0 without writing anything, the
    listing is not empty and the pose video comes back as the result. *)
Example scenario_pose_video_listed :
  fst (handler (Fixture.env_with Fixture.writes_nothing)
         (Fixture.job_of [("image_base64", PStr Fixture.jpeg_b64);
                          ("audio_base64", PStr Fixture.wav_b64);
                          ("pose_video_base64", PStr "AAAA")])
         Fixture.w0)
  = Returned (PDict [("video", PStr "AAAA")]).
Proof. reflexivity. Qed.

(** With a pose video and a program that does write [out.mp4], which of
    the two [*.mp4] files comes back depends on the order in which the
    file system lists them: the staged pose video when the oldest name
    comes first, the generated video when the newest does. *)
Example scenario_listing_order :
  fst (handler Fixture.env0 Cases.pose_job Fixture.w0)
  = Returned (PDict [("video", PStr "AAAA")])
  /\ fst (handler Cases.env_newest_first Cases.pose_job Fixture.w0)
     = Returned (PDict [("video", PStr (b64encode Fixture.ten_bytes))]).
Proof. split; reflexivity. Qed.

(** Output that is no text makes [subprocess.run] raise after the program
    has exited; the handler reports it like a failure to start. *)
Example scenario_undecodable_output :
  fst (handler (Fixture.env_with Cases.writes_garbage) Fixture.good_job Fixture.w0)
  = Returned (error_result
      "Generation failed: 'utf-8' codec can't decode byte 0xff in position 0: invalid start byte").
Proof. reflexivity. Qed.

(** The codec round trip on the fixture. *)
Example scenario_codec_round_trip :
  b64decode (b64encode Fixture.ten_bytes) = inl Fixture.ten_bytes.
Proof. reflexivity. Qed.

(** * Further properties of [handler.py] *)

(** ** The shape of a run that reaches the external program *)

(** When [subprocess.run] is called, the request had an input mapping, the
    extensions were detected, every payload to stage decoded, and the trace
    of the call is: the scratch directory made, the image, the audio and
    (for a truthy pose value) the pose video written, the call itself, what
    the child did, the scratch directory removed. *)
Lemma handler_run_trace (env : Env) (job : dict) (w : World)
      (cmd : list pyval) (t : N) (cwd : path) :
  In (EvRun cmd t cwd) (events_since w (snd (handler env job w))) ->
  exists inp d iext aext tl,
    dict_get "input" job = Some (PDict inp)
    /\ detect_image_ext (dict_get_default "image_base64" PNone inp) = inl iext
    /\ detect_audio_ext (dict_get_default "audio_base64" PNone inp) = inl aext
    /\ build_cmd env d (d ++ "/" ++ "input" ++ iext) (d ++ "/" ++ "input" ++ aext)
         (dict_get_default "size" (PStr (DEFAULT_SIZE env)) inp)
         (dict_get_default "steps" (PInt (DEFAULT_STEPS env)) inp)
         (dict_get_default "cfg" (PFloat five) inp)
         (dict_get_default "prompt" (PStr "") inp)
         (negative_prompt_of inp) (seed_of inp)
         (pose_path_of d (dict_get_default "pose_video_base64" PNone inp)) = inl cmd
    /\ events_since w (snd (handler env job w))
       = (EvMkdtemp d
            :: map EvWriteFile
                 (staged_paths (d ++ "/" ++ "input" ++ iext)%string
                    (d ++ "/" ++ "input" ++ aext)%string d
                    (dict_get_default "pose_video_base64" PNone inp))
            ++ EvRun cmd 600 "/app" :: tl ++ [EvRmtree d])%list
    /\ forallb is_child_event tl = true.
Proof.
  destruct (handler_validation env job w) as [(dft & _ & ->) | (inp & Hin & Himg & Haud)].
  { cbn [snd]. rewrite events_since_refl. contradiction. }
  rewrite (handler_process env job inp w Hin Himg Haud). cbn zeta.
  set (d := tmp_name env (w_files w) (w_dirs w)).
  rewrite job_body_eq.
  destruct (detect_image_ext _) as [iext|e] eqn:Hi.
  2:{ cbn [snd]. rewrite (events_since_app _ _ [EvMkdtemp d; EvRmtree d]).
      - cbn. intuition discriminate.
      - cbn. now rewrite <- app_assoc. }
  destruct (detect_audio_ext _) as [aext|e] eqn:Ha.
  2:{ cbn [snd]. rewrite (events_since_app _ _ [EvMkdtemp d; EvRmtree d]).
      - cbn. intuition discriminate.
      - cbn. now rewrite <- app_assoc. }
  rewrite stage_inputs_eq. unfold pose_path_of, staged_paths.
  set (ip := d ++ "/" ++ "input" ++ iext). set (ap := d ++ "/" ++ "input" ++ aext).
  assert (Hnone : forall ps e0,
             ~ In (EvRun cmd t cwd) (EvMkdtemp d :: map EvWriteFile ps ++ [e0])
             \/ is_run_call e0 = true).
  { intros ps e0. destruct (is_run_call e0) eqn:He0; [now right | left].
    intros [H | H]; [discriminate H |].
    apply in_app_or in H as [H | [H | []]].
    - apply in_map_iff in H as (q & Hq & _). discriminate Hq.
    - subst e0. discriminate He0. }
  destruct (save_outcome _ _ _) as [bi|e].
  2:{ cbn [snd]. intros H. exfalso. events_of_world H.
      destruct (Hnone [] (EvRmtree d)) as [Hn | Hn]; [now apply Hn | discriminate Hn]. }
  destruct (save_outcome _ _ _) as [ba|e].
  2:{ cbn [snd]. intros H. exfalso. events_of_world H.
      destruct (Hnone [ip] (EvRmtree d)) as [Hn | Hn]; [now apply Hn | discriminate Hn]. }
  destruct (truthy _) eqn:Hp.
  - destruct (save_outcome _ _ _) as [bp|e].
    2:{ cbn [snd]. intros H. exfalso. events_of_world H.
        destruct (Hnone [ip; ap] (EvRmtree d)) as [Hn | Hn];
          [now apply Hn | discriminate Hn]. }
    destruct (build_cmd _ _ _ _ _ _ _ _ _ _ _) as [cmd'|e] eqn:Hcmd.
    2:{ cbn [snd]. intros H. exfalso. events_of_world H.
        destruct (Hnone [ip; ap; d ++ "/" ++ "pose.mp4"] (EvRmtree d)) as [Hn | Hn];
          [now apply Hn | discriminate Hn]. }
    match goal with
    | |- context [run_and_collect env cmd' d ?w1] =>
        destruct (run_and_collect_frame env cmd' d w1)
          as (v & tl & _ & _ & Ht2 & Hev & _ & _);
        destruct (run_and_collect env cmd' d w1) as [r w2]
    end.
    cbn [snd] in *.
    assert (Hevs : events_since w (rmtree d w2)
                   = (EvMkdtemp d :: map EvWriteFile [ip; ap; (d ++ "/" ++ "pose.mp4")%string]
                        ++ EvRun cmd' 600 "/app" :: tl ++ [EvRmtree d])%list).
    { apply events_since_app. rewrite rmtree_trace, Ht2.
      trace_of_world. rewrite <- !app_assoc. reflexivity. }
    rewrite Hevs. intros H.
    assert (cmd' = cmd) as ->.
    { destruct H as [H | H]; [discriminate H |].
      cbn [map app] in H.
      repeat (destruct H as [H | H]; [discriminate H |]).
      destruct H as [[= ->] | H]; [reflexivity |].
      apply in_app_or in H as [H | [H | []]]; [| discriminate H].
      rewrite forallb_forall in Hev. apply Hev in H. discriminate H. }
    exists inp, d, iext, aext, tl. rewrite Hp. repeat split; auto.
  - destruct (build_cmd _ _ _ _ _ _ _ _ _ _ _) as [cmd'|e] eqn:Hcmd.
    2:{ cbn [snd]. intros H. exfalso. events_of_world H.
        destruct (Hnone [ip; ap] (EvRmtree d)) as [Hn | Hn];
          [now apply Hn | discriminate Hn]. }
    match goal with
    | |- context [run_and_collect env cmd' d ?w1] =>
        destruct (run_and_collect_frame env cmd' d w1)
          as (v & tl & _ & _ & Ht2 & Hev & _ & _);
        destruct (run_and_collect env cmd' d w1) as [r w2]
    end.
    cbn [snd] in *.
    assert (Hevs : events_since w (rmtree d w2)
                   = (EvMkdtemp d :: map EvWriteFile [ip; ap]
                        ++ EvRun cmd' 600 "/app" :: tl ++ [EvRmtree d])%list).
    { apply events_since_app. rewrite rmtree_trace, Ht2.
      trace_of_world. rewrite <- !app_assoc. reflexivity. }
    rewrite Hevs. intros H.
    assert (cmd' = cmd) as ->.
    { destruct H as [H | H]; [discriminate H |].
      cbn [map app] in H.
      repeat (destruct H as [H | H]; [discriminate H |]).
      destruct H as [[= ->] | H]; [reflexivity |].
      apply in_app_or in H as [H | [H | []]]; [| discriminate H].
      rewrite forallb_forall in Hev. apply Hev in H. discriminate H. }
    exists inp, d, iext, aext, tl. rewrite Hp. repeat split; auto.
Qed.

Lemma prefix_join (d x : string) : String.prefix (d ++ "/") (d ++ "/" ++ x) = true.
Proof.
  induction d as [|c d IH]; cbn.
  - now destruct x.
  - destruct (ascii_dec c c); [exact IH | congruence].
Qed.

Lemma under_join (d x : string) : under d (d ++ "/" ++ x) = true.
Proof. apply prefix_join. Qed.

(** X1. Whenever the external program is run, its option [--output_dir] is
    the scratch directory of the call and its options [--image] and
    [--audio] name files inside that directory which the handler wrote
    before it called [subprocess.run]. *)
Theorem run_sees_staged_inputs (env : Env) (job : dict) (w : World)
        (cmd : list pyval) (t : N) (cwd : path) :
  In (EvRun cmd t cwd) (events_since w (snd (handler env job w))) ->
  exists d ip ap pre post,
    events_since w (snd (handler env job w)) = (pre ++ EvRun cmd t cwd :: post)%list
    /\ In (EvMkdtemp d) pre
    /\ cmd_option "--output_dir" cmd = Some (PStr d)
    /\ cmd_option "--image" cmd = Some (PStr ip)
    /\ cmd_option "--audio" cmd = Some (PStr ap)
    /\ In (EvWriteFile ip) pre /\ In (EvWriteFile ap) pre
    /\ under d ip = true /\ under d ap = true.
Proof.
  intros Hrun.
  destruct (handler_run_cmd env job w cmd t cwd Hrun) as (-> & -> & _).
  destruct (handler_run_trace env job w cmd _ _ Hrun)
    as (inp & d & iext & aext & tl & _ & _ & _ & Hcmd & Hevs & _).
  apply build_cmd_options in Hcmd as (g & st & ct & sd & _ & Hst & Hct & _ & Hopts).
  exists d, (d ++ "/" ++ "input" ++ iext), (d ++ "/" ++ "input" ++ aext).
  eexists. exists (tl ++ [EvRmtree d])%list.
  split; [rewrite Hevs; rewrite app_comm_cons; reflexivity |].
  unfold cmd_option. rewrite Hopts. unfold staged_paths.
  split; [now left |].
  repeat split; try reflexivity; try apply under_join.
  - right. cbn. now left.
  - right. cbn. right. now left.
Qed.

Lemma run_sees_staged_inputs_witness :
  In (EvRun (map PStr Fixture.good_argv) 600 "/app")
     (events_since Fixture.w0 (snd (handler Fixture.env0 Fixture.good_job Fixture.w0)))
  /\ exists d ip ap pre post,
      events_since Fixture.w0 (snd (handler Fixture.env0 Fixture.good_job Fixture.w0))
      = (pre ++ EvRun (map PStr Fixture.good_argv) 600 "/app" :: post)%list
      /\ In (EvMkdtemp d) pre
      /\ cmd_option "--output_dir" (map PStr Fixture.good_argv) = Some (PStr d)
      /\ cmd_option "--image" (map PStr Fixture.good_argv) = Some (PStr ip)
      /\ cmd_option "--audio" (map PStr Fixture.good_argv) = Some (PStr ap)
      /\ In (EvWriteFile ip) pre /\ In (EvWriteFile ap) pre
      /\ under d ip = true /\ under d ap = true.
Proof.
  assert (H : In (EvRun (map PStr Fixture.good_argv) 600 "/app")
                (events_since Fixture.w0
                   (snd (handler Fixture.env0 Fixture.good_job Fixture.w0)))).
  { vm_compute. auto 10. }
  split; [exact H |].
  exact (run_sees_staged_inputs Fixture.env0 Fixture.good_job Fixture.w0 _ _ _ H).
Defined.

(** X2. A truthy pose video that decodes is written to [pose.mp4] in the
    scratch directory before the run and passed as [--pose_video]. *)
Theorem truthy_pose_is_passed (env : Env) (job inp : dict) (w : World)
        (cmd : list pyval) (t : N) (cwd : path) :
  dict_get "input" job = Some (PDict inp) ->
  truthy (dict_get_default "pose_video_base64" PNone inp) = true ->
  In (EvRun cmd t cwd) (events_since w (snd (handler env job w))) ->
  exists d pre post,
    events_since w (snd (handler env job w)) = (pre ++ EvRun cmd t cwd :: post)%list
    /\ In (EvMkdtemp d) pre
    /\ In (EvWriteFile (d ++ "/" ++ "pose.mp4")) pre
    /\ cmd_option "--pose_video" cmd = Some (PStr (d ++ "/" ++ "pose.mp4")).
Proof.
  intros Hin Hpose Hrun.
  destruct (handler_run_cmd env job w cmd t cwd Hrun) as (-> & -> & _).
  destruct (handler_run_trace env job w cmd _ _ Hrun)
    as (inp' & d & iext & aext & tl & Hin' & _ & _ & Hcmd & Hevs & _).
  assert (inp' = inp) as -> by congruence.
  unfold pose_path_of in Hcmd. unfold staged_paths in Hevs. rewrite Hpose in Hcmd, Hevs.
  apply build_cmd_options in Hcmd as (g & st & ct & sd & _ & Hst & Hct & _ & Hopts).
  exists d. eexists. exists (tl ++ [EvRmtree d])%list.
  split; [rewrite Hevs; rewrite app_comm_cons; reflexivity |].
  split; [now left |].
  split; [right; cbn; auto |].
  unfold cmd_option. rewrite Hopts.
  destruct (truthy (dict_get_default "prompt" _ _)),
    (truthy (negative_prompt_of inp)), g, (OFFLOAD_MODEL env); reflexivity.
Qed.

Lemma truthy_pose_is_passed_witness :
  In (EvRun Cases.pose_cmd 600 "/app")
     (events_since Fixture.w0 (snd (handler Fixture.env0 Cases.pose_job Fixture.w0)))
  /\ exists d pre post,
      events_since Fixture.w0 (snd (handler Fixture.env0 Cases.pose_job Fixture.w0))
      = (pre ++ EvRun Cases.pose_cmd 600 "/app" :: post)%list
      /\ In (EvMkdtemp d) pre
      /\ In (EvWriteFile (d ++ "/" ++ "pose.mp4")) pre
      /\ cmd_option "--pose_video" Cases.pose_cmd = Some (PStr (d ++ "/" ++ "pose.mp4")).
Proof.
  assert (H : In (EvRun Cases.pose_cmd 600 "/app")
                (events_since Fixture.w0
                   (snd (handler Fixture.env0 Cases.pose_job Fixture.w0)))).
  { vm_compute. auto 10. }
  split; [exact H |].
  exact (truthy_pose_is_passed Fixture.env0 Cases.pose_job _ Fixture.w0 _ _ _
           eq_refl eq_refl H).
Defined.

(** ** Processes *)

(** X4. A call runs the external program at most once: nothing is
    retried. *)
Theorem handler_runs_at_most_once (env : Env) (job : dict) (w : World) :
  (List.length (filter is_run_call (events_since w (snd (handler env job w)))) <= 1)%nat.
Proof.
  destruct (handler_paths env job w)
    as [(dft & _ & ->)
       | [(d & w1 & r & Hst & -> & _)
         | (inp & d & w1 & cmd & ip & ap & pp & _ & Hst & _ & _ & _ & ->)]].
  - cbn [snd]. rewrite events_since_refl. cbn. lia.
  - apply staged_only_enter in Hst as (ws & Ht & Hw & _ & _).
    cbn [snd]. rewrite (events_since_app _ _ (EvMkdtemp d :: ws ++ [EvRmtree d])).
    2:{ rewrite rmtree_trace, Ht, <- app_assoc. reflexivity. }
    cbn [filter is_run_call]. rewrite filter_app, (filter_none _ ws).
    + cbn. lia.
    + intros x Hx. rewrite forallb_forall in Hw. apply Hw in Hx. now destruct x.
  - apply staged_only_enter in Hst as (ws & Ht & Hw & _ & _).
    destruct (run_and_collect_frame env cmd d w1) as (v & tl & _ & _ & Ht2 & Hev & _ & _).
    destruct (run_and_collect env cmd d w1) as [r w2]. cbn [snd] in *.
    rewrite (events_since_app _ _
               (EvMkdtemp d :: ws ++ EvRun cmd 600 "/app" :: tl ++ [EvRmtree d])).
    2:{ rewrite rmtree_trace, Ht2, Ht, <- !app_assoc. reflexivity. }
    cbn [filter is_run_call]. rewrite filter_app, (filter_none _ ws).
    + cbn [app filter is_run_call]. rewrite filter_app, (filter_none _ tl).
      * cbn. lia.
      * intros x Hx. rewrite forallb_forall in Hev. apply Hev in Hx. now destruct x.
    + intros x Hx. rewrite forallb_forall in Hw. apply Hw in Hx. now destruct x.
Qed.


(** X5. A video is only ever returned after the external program exited
    with code zero within the deadline (it was not killed): the call ends
    with the exit, the listing of the scratch directory, the reading of the
    first [*.mp4] entry listed and the removal of the directory, in this
    order, and the video is the base64 text of some bytes. *)
Theorem video_means_exit_zero (env : Env) (job : dict) (w : World) (s : string) :
  fst (handler env job w) = Returned (PDict [("video", PStr s)]) ->
  exists pid out err d p ps b pre,
    events_since w (snd (handler env job w))
    = (pre ++ [EvExit pid 0 out err; EvGlob d (p :: ps); EvReadFile p; EvRmtree d])%list
    /\ s = b64encode b
    /\ (forall q, ~ In (EvKill q) (events_since w (snd (handler env job w)))).
Proof.
  destruct (handler_paths env job w)
    as [(dft & _ & ->)
       | [(d & w1 & r & Hst & -> & [[e ->] | [msg ->]])
         | (inp & d & w1 & cmd & ip & ap & pp & _ & Hst & _ & _ & _ & ->)]];
    try (cbn [fst]; unfold error_result; intros H; discriminate H).
  apply staged_only_enter in Hst as (ws & Ht & Hw & _ & _).
  rewrite run_and_collect_eq. cbn zeta. unfold run_failure, error_result.
  destruct (argv_of cmd) as [argv|e];
    [destruct (child env argv "/app" (w_files w1)) as [e|x]; [| run_branches d x] |];
    cbn [fst snd as_outcome]; try destruct (is_TimeoutExpired e);
    intros H; try discriminate H.
  injection H as <-.
  apply Z.eqb_eq in Hrc.
  exists (fresh_pid (w_children w1)), (x_stdout x), (x_stderr x), d, p, ps, b.
  exists (EvMkdtemp d
            :: ws ++ [EvRun cmd 600 "/app"; EvSpawn (fresh_pid (w_children w1)) argv;
                      EvFilesLeft (fresh_pid (w_children w1)) (x_files x)])%list.
  events_in_goal Ht. rewrite Hrc.
  split; [cbn [app]; rewrite <- app_assoc; reflexivity |].
  split; [reflexivity |].
  intros q [Hq | Hq]; [discriminate Hq |].
  apply in_app_or in Hq as [Hq | Hq].
  - rewrite forallb_forall in Hw. apply Hw in Hq. discriminate Hq.
  - cbn in Hq. intuition discriminate.
Qed.

Lemma video_means_exit_zero_witness :
  fst (handler Fixture.env0 Fixture.good_job Fixture.w0)
  = Returned (PDict [("video", PStr "AAECAwQFBgcICQ==")])
  /\ exists pid out err d p ps b pre,
      events_since Fixture.w0 (snd (handler Fixture.env0 Fixture.good_job Fixture.w0))
      = (pre ++ [EvExit pid 0 out err; EvGlob d (p :: ps); EvReadFile p; EvRmtree d])%list
      /\ "AAECAwQFBgcICQ==" = b64encode b
      /\ (forall q, ~ In (EvKill q)
                      (events_since Fixture.w0
                         (snd (handler Fixture.env0 Fixture.good_job Fixture.w0)))).
Proof.
  split; [reflexivity |].
  exact (video_means_exit_zero Fixture.env0 Fixture.good_job Fixture.w0 _ eq_refl).
Defined.



(** A call that reaches [subprocess.run] with [cmd] ends as
    [run_and_collect] on [cmd] ends, in a world where only the staging
    happened. *)
Lemma handler_run_result (env : Env) (job : dict) (w : World)
      (cmd : list pyval) (t : N) (cwd : path) :
  In (EvRun cmd t cwd) (events_since w (snd (handler env job w))) ->
  exists d w1 ws,
    w_trace w1 = (w_trace w ++ EvMkdtemp d :: ws)%list
    /\ forallb is_write ws = true
    /\ handler env job w
       = (let '(r, w2) := run_and_collect env cmd d w1 in (as_outcome r, rmtree d w2)).
Proof.
  intros Hrun.
  destruct (handler_paths env job w)
    as [(dft & _ & Heq)
       | [(d & w1 & r & Hst & Heq & _)
         | (inp & d & w1 & cmd' & ip & ap & pp & _ & Hst & _ & _ & _ & Heq)]];
    rewrite Heq in *.
  - cbn [snd] in Hrun. rewrite events_since_refl in Hrun. contradiction.
  - exfalso. apply staged_only_enter in Hst as (ws & Ht & Hw & _ & _).
    cbn [snd] in Hrun. events_in Hrun Ht.
    apply in_after_staging in Hrun; auto.
    cbn in Hrun. intuition discriminate.
  - apply staged_only_enter in Hst as (ws & Ht & Hw & _ & _).
    assert (cmd' = cmd) as ->.
    { destruct (run_and_collect_frame env cmd' d w1)
        as (v & evs & _ & _ & Ht2 & Hev & _ & _).
      destruct (run_and_collect env cmd' d w1) as [r w2]. cbn [snd] in *.
      erewrite (events_since_app _ _ _) in Hrun;
        [| rewrite rmtree_trace, Ht2, Ht, <- !app_assoc; cbn [app]; reflexivity].
      apply in_after_staging in Hrun; auto.
      destruct Hrun as [[= <- _ _] | Hrun]; [reflexivity |].
      exfalso. apply in_app_or in Hrun as [Hrun | [Hrun | []]]; [| discriminate Hrun].
      rewrite forallb_forall in Hev. apply Hev in Hrun. discriminate Hrun. }
    exists d, w1, ws. auto.
Qed.



Lemma argv_of_not_timeout (cmd : list pyval) (e : exn) :
  argv_of cmd = inr e -> is_TimeoutExpired e = false.
Proof.
  induction cmd as [|v cmd IH]; [discriminate |].
  cbn. destruct v; try (intros [= <-]; reflexivity).
  destruct (Str.contains _ s); [intros [= <-]; reflexivity |].
  destruct (argv_of cmd); [discriminate | intros [= <-]; auto].
Qed.

Lemma argv_of_app_bad (pre post : list pyval) (v : pyval) :
  is_str v = false -> exists e, argv_of (pre ++ v :: post) = inr e.
Proof.
  intros Hv. induction pre as [|u pre [e IH]]; cbn.
  - destruct v; try discriminate Hv; eauto.
  - destruct u; eauto. destruct (Str.contains _ s); [eauto |]. rewrite IH. eauto.
Qed.

(** X8. The size is put on the command line as it came, not through
    [str] like the steps and the cfg scale: a size that is not a string
    makes [subprocess.run] refuse the command line, so no process is
    started and the call returns a [Generation failed:] error. *)
Theorem non_string_size_never_runs (env : Env) (job inp : dict) (v : pyval) (w : World)
        (cmd : list pyval) (t : N) (cwd : path) :
  dict_get "input" job = Some (PDict inp) ->
  dict_get "size" inp = Some v ->
  is_str v = false ->
  In (EvRun cmd t cwd) (events_since w (snd (handler env job w))) ->
  (exists msg, fst (handler env job w)
               = Returned (error_result ("Generation failed: " ++ msg)))
  /\ (forall pid a, ~ In (EvSpawn pid a) (events_since w (snd (handler env job w)))).
Proof.
  intros Hin Hsize Hv Hrun.
  assert (Hbad : exists e, argv_of cmd = inr e).
  { destruct (handler_run_cmd env job w cmd t cwd Hrun)
      as (_ & _ & inp' & d & ip & ap & pp & Hin' & Hcmd & _).
    assert (inp' = inp) as -> by congruence.
    apply build_cmd_shape in Hcmd as Hshape.
    apply build_cmd_options in Hcmd as (g & st & ct & sd & _ & Hst & Hct & _ & Hopts).
    rewrite Hshape, Hopts.
    unfold dict_get_default. rewrite Hsize. cbn [unpairs flat_map app].
    apply (argv_of_app_bad [_; _; _; _; _]). exact Hv. }
  destruct Hbad as [e He].
  destruct (handler_run_result env job w cmd t cwd Hrun) as (d & w1 & ws & Ht & Hw & ->).
  rewrite run_and_collect_eq. cbn zeta. rewrite He.
  unfold run_failure. rewrite (argv_of_not_timeout cmd e He).
  cbn [fst snd as_outcome]. split; [eauto |].
  intros pid a Hs. events_in Hs Ht.
  apply in_after_staging in Hs; auto.
  cbn in Hs. intuition discriminate.
Qed.

Lemma non_string_size_never_runs_witness :
  In (EvRun Cases.int_size_cmd 600 "/app")
     (events_since Fixture.w0 (snd (handler Fixture.env0 Cases.int_size_job Fixture.w0)))
  /\ fst (handler Fixture.env0 Cases.int_size_job Fixture.w0)
     = Returned (error_result
         "Generation failed: expected str, bytes or os.PathLike object, not int")
  /\ (exists msg, fst (handler Fixture.env0 Cases.int_size_job Fixture.w0)
                  = Returned (error_result ("Generation failed: " ++ msg))).
Proof.
  assert (H : In (EvRun Cases.int_size_cmd 600 "/app")
                (events_since Fixture.w0
                   (snd (handler Fixture.env0 Cases.int_size_job Fixture.w0)))).
  { vm_compute. auto 10. }
  split; [exact H |]. split; [reflexivity |].
  exact (proj1 (non_string_size_never_runs Fixture.env0 Cases.int_size_job _ (PInt 480)
                  Fixture.w0 _ _ _ eq_refl eq_refl eq_refl H)).
Defined.

(** ** Defaults and the other optional flags *)

Lemma get_default_absent (k : string) (dflt : pyval) (inp : dict) :
  dict_get k inp = None -> dict_get_default k dflt inp = dflt.
Proof.
  unfold dict_get_default. now intros ->.
Qed.

(** X9. For a request that has only the two required fields, the command
    line is: task [s2v-14B], the configured default size, the model
    directory, the image and the audio files staged before the run in the
    scratch directory of the call ([input] with the detected extension),
    that directory as output directory, the configured default step count
    in decimal, the cfg scale [repr(5.0)], the default negative prompt, and
    [--offload_model True] when the configuration asks for it; no prompt,
    no seed, no pose video. *)
Theorem defaults_on_command_line (env : Env) (job inp : dict) (w : World)
        (cmd : list pyval) (t : N) (cwd : path) :
  dict_get "input" job = Some (PDict inp) ->
  dict_get "prompt" inp = None ->
  dict_get "negative_prompt" inp = None ->
  dict_get "size" inp = None ->
  dict_get "steps" inp = None ->
  dict_get "cfg" inp = None ->
  dict_get "seed" inp = None ->
  dict_get "pose_video_base64" inp = None ->
  In (EvRun cmd t cwd) (events_since w (snd (handler env job w))) ->
  exists d iext aext pre post,
    events_since w (snd (handler env job w)) = (pre ++ EvRun cmd t cwd :: post)%list
    /\ In (EvMkdtemp d) pre
    /\ detect_image_ext (dict_get_default "image_base64" PNone inp) = inl iext
    /\ detect_audio_ext (dict_get_default "audio_base64" PNone inp) = inl aext
    /\ In (EvWriteFile (d ++ "/" ++ "input" ++ iext)) pre
    /\ In (EvWriteFile (d ++ "/" ++ "input" ++ aext)) pre
    /\ cmd = PStr (sys_executable env) :: PStr "generate.py" :: unpairs (cmd_options cmd)
    /\ cmd_options cmd =
         ([ (PStr "--task", PStr "s2v-14B");
            (PStr "--size", PStr (DEFAULT_SIZE env));
            (PStr "--ckpt_dir", PStr (MODEL_DIR env));
            (PStr "--image", PStr (d ++ "/" ++ "input" ++ iext));
            (PStr "--audio", PStr (d ++ "/" ++ "input" ++ aext));
            (PStr "--output_dir", PStr d);
            (PStr "--sample_steps", PStr (Str.of_Z (DEFAULT_STEPS env)));
            (PStr "--cfg_scale", PStr (py_repr env (PFloat five)));
            (PStr "--negative_prompt", PStr "blurry, low quality, distorted") ]
          ++ flag_if (OFFLOAD_MODEL env) "--offload_model" (PStr "True"))%list.
Proof.
  intros Hin Hp Hn Hsz Hst Hcfg Hseed Hpose Hrun.
  destruct (handler_run_cmd env job w cmd t cwd Hrun) as (-> & -> & _).
  destruct (handler_run_trace env job w cmd _ _ Hrun)
    as (inp' & d & iext & aext & tl & Hin' & Hi & Ha & Hcmd & Hevs & _).
  assert (inp' = inp) as -> by congruence.
  unfold negative_prompt_of, seed_of, pose_path_of in Hcmd.
  rewrite !get_default_absent in Hcmd by assumption.
  exists d, iext, aext. eexists. exists (tl ++ [EvRmtree d])%list.
  split; [rewrite Hevs; rewrite app_comm_cons; reflexivity |].
  split; [now left |].
  split; [exact Hi |]. split; [exact Ha |].
  unfold staged_paths.
  split; [right; cbn; now left |].
  split; [right; cbn; right; now left |].
  split; [now apply build_cmd_shape in Hcmd |].
  apply build_cmd_options in Hcmd as (g & st & ct & sd & Hg & Hst' & Hct & _ & ->).
  cbn in Hg. injection Hg as <-.
  apply py_str_int in Hst'. subst st.
  apply py_str_float in Hct. subst ct.
  destruct (OFFLOAD_MODEL env); reflexivity.
Qed.

Lemma defaults_on_command_line_witness :
  In (EvRun Cases.minimal_cmd 600 "/app")
     (events_since Fixture.w0
        (snd (handler Fixture.env0 (Fixture.job_of Cases.minimal_input) Fixture.w0)))
  /\ exists d iext aext pre post,
      events_since Fixture.w0
        (snd (handler Fixture.env0 (Fixture.job_of Cases.minimal_input) Fixture.w0))
      = (pre ++ EvRun Cases.minimal_cmd 600 "/app" :: post)%list
      /\ In (EvMkdtemp d) pre
      /\ detect_image_ext (dict_get_default "image_base64" PNone Cases.minimal_input)
         = inl iext
      /\ detect_audio_ext (dict_get_default "audio_base64" PNone Cases.minimal_input)
         = inl aext
      /\ In (EvWriteFile (d ++ "/" ++ "input" ++ iext)) pre
      /\ In (EvWriteFile (d ++ "/" ++ "input" ++ aext)) pre
      /\ Cases.minimal_cmd
         = PStr (sys_executable Fixture.env0) :: PStr "generate.py"
             :: unpairs (cmd_options Cases.minimal_cmd)
      /\ cmd_options Cases.minimal_cmd =
           ([ (PStr "--task", PStr "s2v-14B");
              (PStr "--size", PStr (DEFAULT_SIZE Fixture.env0));
              (PStr "--ckpt_dir", PStr (MODEL_DIR Fixture.env0));
              (PStr "--image", PStr (d ++ "/" ++ "input" ++ iext));
              (PStr "--audio", PStr (d ++ "/" ++ "input" ++ aext));
              (PStr "--output_dir", PStr d);
              (PStr "--sample_steps", PStr (Str.of_Z (DEFAULT_STEPS Fixture.env0)));
              (PStr "--cfg_scale", PStr (py_repr Fixture.env0 (PFloat five)));
              (PStr "--negative_prompt", PStr "blurry, low quality, distorted") ]
            ++ flag_if (OFFLOAD_MODEL Fixture.env0) "--offload_model" (PStr "True"))%list.
Proof.
  assert (H : In (EvRun Cases.minimal_cmd 600 "/app")
                (events_since Fixture.w0
                   (snd (handler Fixture.env0 (Fixture.job_of Cases.minimal_input)
                           Fixture.w0)))).
  { vm_compute. auto 10. }
  split; [exact H |].
  exact (defaults_on_command_line Fixture.env0 (Fixture.job_of Cases.minimal_input)
           Cases.minimal_input Fixture.w0 _ _ _
           eq_refl eq_refl eq_refl eq_refl eq_refl eq_refl eq_refl eq_refl H).
Defined.

(** X10. The option [--prompt] is on the command line exactly when the
    prompt of the request is truthy, with the prompt as it came; a request
    without a prompt, or with an empty one, gets no such option. *)
Theorem prompt_flag (env : Env) (job inp : dict) (w : World)
        (cmd : list pyval) (t : N) (cwd : path) :
  dict_get "input" job = Some (PDict inp) ->
  In (EvRun cmd t cwd) (events_since w (snd (handler env job w))) ->
  cmd_option "--prompt" cmd
  = (match dict_get "prompt" inp with
     | Some v => if truthy v then Some v else None
     | None => None
     end).
Proof.
  intros Hin Hrun.
  apply handler_run_cmd in Hrun as (_ & _ & inp' & d & ip & ap & pp & Hin' & Hcmd & _).
  assert (inp' = inp) as -> by congruence.
  apply build_cmd_options in Hcmd as (g & st & ct & sd & _ & Hst & Hct & _ & Hopts).
  assert (Hpr : match dict_get "prompt" inp with
                | Some v => if truthy v then Some v else None
                | None => None
                end
                = (if truthy (dict_get_default "prompt" (PStr "") inp)
                   then Some (dict_get_default "prompt" (PStr "") inp) else None)).
  { unfold dict_get_default. now destruct (dict_get "prompt" inp). }
  rewrite Hpr. unfold cmd_option. rewrite Hopts.
  destruct (truthy (dict_get_default "prompt" _ _)),
    (truthy (negative_prompt_of inp)), g, (OFFLOAD_MODEL env), pp; reflexivity.
Qed.

Lemma prompt_flag_witness :
  In (EvRun Cases.prompt_cmd 600 "/app")
     (events_since Fixture.w0 (snd (handler Fixture.env0 Cases.prompt_job Fixture.w0)))
  /\ cmd_option "--prompt" Cases.prompt_cmd = Some (PStr "a person talking").
Proof.
  assert (H : In (EvRun Cases.prompt_cmd 600 "/app")
                (events_since Fixture.w0
                   (snd (handler Fixture.env0 Cases.prompt_job Fixture.w0)))).
  { vm_compute. auto 10. }
  split; [exact H |].
  exact (prompt_flag Fixture.env0 Cases.prompt_job _ Fixture.w0 _ _ _ eq_refl H).
Defined.

(** X11. The option [--offload_model True] is on the command line exactly
    when the process-wide configuration enables it; no request can switch
    it on or off. *)
Theorem offload_flag (env : Env) (job : dict) (w : World)
        (cmd : list pyval) (t : N) (cwd : path) :
  In (EvRun cmd t cwd) (events_since w (snd (handler env job w))) ->
  cmd_option "--offload_model" cmd
  = (if OFFLOAD_MODEL env then Some (PStr "True") else None).
Proof.
  intros Hrun.
  apply handler_run_cmd in Hrun as (_ & _ & inp & d & ip & ap & pp & _ & Hcmd & _).
  apply build_cmd_options in Hcmd as (g & st & ct & sd & _ & Hst & Hct & _ & Hopts).
  unfold cmd_option. rewrite Hopts.
  destruct (truthy (dict_get_default "prompt" _ _)),
    (truthy (negative_prompt_of inp)), g, (OFFLOAD_MODEL env), pp; reflexivity.
Qed.

Lemma offload_flag_witness :
  In (EvRun Cases.minimal_cmd 600 "/app")
     (events_since Fixture.w0
        (snd (handler Fixture.env0 (Fixture.job_of Cases.minimal_input) Fixture.w0)))
  /\ cmd_option "--offload_model" Cases.minimal_cmd = Some (PStr "True").
Proof.
  assert (H : In (EvRun Cases.minimal_cmd 600 "/app")
                (events_since Fixture.w0
                   (snd (handler Fixture.env0 (Fixture.job_of Cases.minimal_input)
                           Fixture.w0)))).
  { vm_compute. auto 10. }
  split; [exact H |].
  exact (offload_flag Fixture.env0 (Fixture.job_of Cases.minimal_input) Fixture.w0 _ _ _ H).
Defined.

(** ** The two file helpers and the codec *)

Lemma all_below_spec (k : nat) (P : N -> bool) :
  all_below k P = true -> forall n, (n < N.of_nat k)%N -> P n = true.
Proof.
  unfold all_below. rewrite forallb_forall. intros H n Hn.
  apply H. apply in_map_iff. exists (N.to_nat n).
  split; [apply N2Nat.id | apply in_seq; lia].
Qed.

Lemma sextet_round_trip (n : N) :
  (n < 64)%N ->
  sextet_of_char (char_of_sextet n) = Some n
  /\ Ascii.eqb (char_of_sextet n) "="%char = false
  /\ is_ascii (char_of_sextet n) = true.
Proof.
  intros Hn.
  assert (H : all_below 64
                (fun n => match sextet_of_char (char_of_sextet n) with
                          | Some m => (m =? n)%N
                          | None => false
                          end
                          && negb (Ascii.eqb (char_of_sextet n) "="%char)
                          && is_ascii (char_of_sextet n)) = true)
    by (vm_compute; reflexivity).
  apply (all_below_spec 64 _ H) in Hn.
  apply andb_prop in Hn as [Hn H3]. apply andb_prop in Hn as [H1 H2].
  destruct (sextet_of_char (char_of_sextet n)) as [m|]; [| discriminate H1].
  apply N.eqb_eq in H1. subst m.
  apply negb_true_iff in H2. auto.
Qed.

(** The sextets of three bytes are below 64 and regroup to the bytes. *)
Lemma sextets_regroup (a b c : N) :
  (a < 256)%N -> (b < 256)%N -> (c < 256)%N ->
  match sextets3 a b c with
  | [v0; v1; v2; v3] =>
      (v0 < 64)%N /\ (v1 < 64)%N /\ (v2 < 64)%N /\ (v3 < 64)%N
      /\ regroup v0 v1 v2 v3 = [a; b; c]
  | _ => False
  end.
Proof.
  intros Ha Hb Hc. unfold sextets3, regroup.
  assert (H1 : all_below 256 (fun a => all_below 256 (fun b =>
            (N.shiftr a 2 <? 64)%N
            && (N.lor (N.shiftl (N.land a 3) 4) (N.shiftr b 4) <? 64)%N
            && (N.lor (N.shiftl (N.shiftr a 2) 2)
                  (N.shiftr (N.lor (N.shiftl (N.land a 3) 4) (N.shiftr b 4)) 4) =? a)%N
            && (N.land (N.lor (N.shiftl (N.land a 3) 4) (N.shiftr b 4)) 15
                =? N.shiftr b 4)%N)) = true)
    by (vm_compute; reflexivity).
  assert (H2 : all_below 256 (fun b => all_below 256 (fun c =>
            (N.lor (N.shiftl (N.land b 15) 2) (N.shiftr c 6) <? 64)%N
            && (N.land c 63 <? 64)%N
            && (N.lor (N.shiftl (N.shiftr b 4) 4)
                  (N.shiftr (N.lor (N.shiftl (N.land b 15) 2) (N.shiftr c 6)) 2) =? b)%N
            && (N.lor (N.shiftl
                         (N.land (N.lor (N.shiftl (N.land b 15) 2) (N.shiftr c 6)) 3) 6)
                  (N.land c 63) =? c)%N)) = true)
    by (vm_compute; reflexivity).
  apply (all_below_spec 256 _ H1) in Ha. apply (all_below_spec 256 _ Ha) in Hb as Hab.
  apply (all_below_spec 256 _ H2) in Hb. apply (all_below_spec 256 _ Hb) in Hc as Hbc.
  repeat (match goal with
          | H : (_ && _) = true |- _ => apply andb_prop in H as [? ?]
          end).
  repeat (match goal with
          | H : (_ <? _)%N = true |- _ => apply N.ltb_lt in H
          | H : (_ =? _)%N = true |- _ => apply N.eqb_eq in H
          end).
  repeat split; try assumption.
  congruence.
Qed.

(** One data character moves the scan by one position of the quad. *)
Lemma a2b_scan_data (v : N) (cs : list ascii) (q : nat) (lc : N) (pads : nat)
      (out : list N) :
  (v < 64)%N ->
  a2b_scan (char_of_sextet v :: cs) q lc pads out =
    match q with
    | 0%nat => a2b_scan cs 1%nat v 0%nat out
    | 1%nat =>
        a2b_scan cs 2%nat (N.land v 15) 0%nat
          (N.lor (N.shiftl lc 2) (N.shiftr v 4) :: out)
    | 2%nat =>
        a2b_scan cs 3%nat (N.land v 3) 0%nat
          (N.lor (N.shiftl lc 4) (N.shiftr v 2) :: out)
    | _ => a2b_scan cs 0%nat 0%N 0%nat (N.lor (N.shiftl lc 6) v :: out)
    end.
Proof.
  intros Hv. destruct (sextet_round_trip v Hv) as (Hs & He & _).
  cbn [a2b_scan]. rewrite He, Hs. reflexivity.
Qed.

(** A whole group of four data characters yields its three bytes. *)
Lemma a2b_scan_quad (v0 v1 v2 v3 : N) (cs : list ascii) (lc : N) (pads : nat)
      (out : list N) :
  (v0 < 64)%N -> (v1 < 64)%N -> (v2 < 64)%N -> (v3 < 64)%N ->
  a2b_scan (map char_of_sextet [v0; v1; v2; v3] ++ cs) 0 lc pads out
  = a2b_scan cs 0 0%N 0 (rev (regroup v0 v1 v2 v3) ++ out).
Proof.
  intros H0 H1 H2 H3. cbn [map app].
  rewrite !a2b_scan_data by assumption. reflexivity.
Qed.

Lemma list_ind3 {A} (P : list A -> Prop) :
  P [] -> (forall a, P [a]) -> (forall a b, P [a; b]) ->
  (forall a b c l, P l -> P (a :: b :: c :: l)) ->
  forall l, P l.
Proof.
  intros H0 H1 H2 H3.
  fix IH 1. intros [|a [|b [|c l]]];
    [exact H0 | apply H1 | apply H2 | apply H3; apply IH].
Qed.

(** Scanning what [b2a] wrote gives the bytes back, in reverse. *)
Lemma a2b_scan_b2a (bs : list N) :
  Forall (fun b => (b < 256)%N) bs ->
  forall out, a2b_scan (b2a bs) 0 0%N 0 out = (0%nat, (rev bs ++ out)%list).
Proof.
  induction bs as [|a|a b|a b c bs IH] using list_ind3; intros Hall out.
  - reflexivity.
  - inversion_clear Hall as [|? ? Ha _].
    pose proof (sextets_regroup a 0 0 Ha eq_refl eq_refl) as H.
    unfold sextets3 in H. destruct H as (H0 & H1 & _ & _ & Hr).
    pose proof (f_equal (fun l => nth 0 l 0%N) Hr) as Hr1.
    cbn [nth regroup] in Hr1.
    cbn [b2a sextets3]. rewrite !a2b_scan_data by assumption.
    rewrite Hr1. reflexivity.
  - inversion_clear Hall as [|? ? Ha Hall']. inversion_clear Hall' as [|? ? Hb _].
    pose proof (sextets_regroup a b 0 Ha Hb eq_refl) as H.
    unfold sextets3 in H. destruct H as (H0 & H1 & H2 & _ & Hr).
    pose proof (f_equal (fun l => nth 0 l 0%N) Hr) as Hr1.
    pose proof (f_equal (fun l => nth 1 l 0%N) Hr) as Hr2.
    cbn [nth regroup] in Hr1, Hr2.
    cbn [b2a sextets3]. rewrite !a2b_scan_data by assumption.
    rewrite Hr1, Hr2. reflexivity.
  - inversion_clear Hall as [|? ? Ha Hall']. inversion_clear Hall' as [|? ? Hb Hall].
    inversion_clear Hall as [|? ? Hc Hbs].
    pose proof (sextets_regroup a b c Ha Hb Hc) as H.
    unfold sextets3 in H. destruct H as (H0 & H1 & H2 & H3 & Hr).
    cbn [b2a]. unfold sextets3.
    rewrite a2b_scan_quad by assumption. rewrite Hr, (IH Hbs).
    cbn [rev app]. rewrite <- !app_assoc. reflexivity.
Qed.

(** [b2a] writes characters of the alphabet and pads only. *)
Lemma b2a_chars (bs : list N) :
  Forall (fun b => (b < 256)%N) bs ->
  forallb (fun c => is_ascii c && is_b64_char c) (b2a bs) = true.
Proof.
  assert (Hch : forall v, (v < 64)%N ->
                          is_ascii (char_of_sextet v) && is_b64_char (char_of_sextet v)
                          = true).
  { intros v Hv. destruct (sextet_round_trip v Hv) as (Hs & _ & Ha).
    unfold is_b64_char. now rewrite Hs, Ha. }
  induction bs as [|a|a b|a b c bs IH] using list_ind3; intros Hall.
  - reflexivity.
  - inversion_clear Hall as [|? ? Ha _].
    pose proof (sextets_regroup a 0 0 Ha eq_refl eq_refl) as H.
    unfold sextets3 in H. destruct H as (H0 & H1 & _).
    cbn [b2a sextets3 forallb]. rewrite !Hch by assumption. reflexivity.
  - inversion_clear Hall as [|? ? Ha Hall']. inversion_clear Hall' as [|? ? Hb _].
    pose proof (sextets_regroup a b 0 Ha Hb eq_refl) as H.
    unfold sextets3 in H. destruct H as (H0 & H1 & H2 & _).
    cbn [b2a sextets3 forallb]. rewrite !Hch by assumption. reflexivity.
  - inversion_clear Hall as [|? ? Ha Hall']. inversion_clear Hall' as [|? ? Hb Hall].
    inversion_clear Hall as [|? ? Hc Hbs].
    pose proof (sextets_regroup a b c Ha Hb Hc) as H.
    unfold sextets3 in H. destruct H as (H0 & H1 & H2 & H3 & _).
    cbn [b2a]. unfold sextets3.
    cbn [map app forallb]. rewrite !Hch by assumption. exact (IH Hbs).
Qed.

Lemma bytes_below_256 (data : bytes) :
  Forall (fun b => (b < 256)%N) (map Byte.to_N data).
Proof.
  apply Forall_forall. intros n Hn. apply in_map_iff in Hn as (b & <- & _).
  pose proof (Byte.to_N_bounded b). lia.
Qed.

Lemma byte_of_to_N (b : Byte.byte) : byte_of_N (Byte.to_N b) = b.
Proof.
  unfold byte_of_N. rewrite N.mod_small.
  - now rewrite Byte.of_to_N.
  - pose proof (Byte.to_N_bounded b). lia.
Qed.

(** The codec round trip: decoding what [b64encode] wrote gives the bytes
    back. *)
Lemma b64decode_b64encode (data : bytes) : b64decode (b64encode data) = inl data.
Proof.
  unfold b64decode, b64encode.
  rewrite list_ascii_of_string_of_list_ascii.
  pose proof (b2a_chars _ (bytes_below_256 data)) as Hch.
  assert (Hascii : forallb is_ascii (b2a (map Byte.to_N data)) = true).
  { rewrite forallb_forall in *. intros c Hc. apply Hch in Hc.
    now apply andb_prop in Hc as [Hc _]. }
  rewrite Hascii. cbn [negb].
  rewrite (a2b_scan_b2a _ (bytes_below_256 data)).
  rewrite app_nil_r, rev_involutive, map_map.
  f_equal. rewrite <- (map_id data) at 2.
  apply map_ext. exact byte_of_to_N.
Qed.

Lemma lookup_store_same (p : path) (data : bytes) (fs : files) :
  lookup_file p (store_file p data fs) = Some data.
Proof.
  induction fs as [|[q b] fs IH]; cbn.
  - now rewrite String.eqb_refl.
  - destruct (String.eqb p q) eqn:E; cbn; rewrite E; auto.
Qed.

Lemma lookup_store_other (p q : path) (data : bytes) (fs : files) :
  q <> p -> lookup_file q (store_file p data fs) = lookup_file q fs.
Proof.
  intros Hne. induction fs as [|[r b] fs IH]; cbn.
  - destruct (String.eqb_spec q p); [contradiction | reflexivity].
  - destruct (String.eqb_spec p r) as [<-|Hpr]; cbn.
    + destruct (String.eqb_spec q p); [contradiction | reflexivity].
    + destruct (String.eqb q r); auto.
Qed.

(** X12. [save_base64_to_file] either writes the decoded bytes to
    [output_path] and returns that path ([open] having accepted the path,
    every other file being as before and the write being its only effect),
    or raises and leaves the world untouched. It raises when the payload
    does not decode and, with a payload that decodes, when [open] refuses
    the path: in neither case is a file created. *)
Theorem save_base64_to_file_effect (v : pyval) (p : path) (w : World) :
  match save_base64_to_file v p w with
  | (Next q, w') =>
      q = p
      /\ (exists data, decode_payload v = inl data
                       /\ lookup_file p (w_files w') = Some data)
      /\ open_wb_error p (w_files w) (w_dirs w) = None
      /\ (forall q', q' <> p -> lookup_file q' (w_files w') = lookup_file q' (w_files w))
      /\ events_since w w' = [EvWriteFile p]
  | (Raise e, w') =>
      w' = w
      /\ (decode_payload v = inr e
          \/ (exists data, decode_payload v = inl data)
             /\ open_wb_error p (w_files w) (w_dirs w) = Some e)
  | (Return _, _) => False
  end.
Proof.
  rewrite save_base64_to_file_eq. unfold save_outcome.
  destruct (decode_payload v) as [data|e]; [| auto].
  destruct (open_wb_error p (w_files w) (w_dirs w)) as [e|] eqn:Hopen.
  { split; [reflexivity |]. right. split; [eauto | reflexivity]. }
  split; [reflexivity |]. unfold staged. cbn [w_files log set_files].
  split; [exists data; split; [reflexivity | apply lookup_store_same] |].
  split; [reflexivity |].
  split; [intros q' Hq; now apply lookup_store_other |].
  apply events_since_app. reflexivity.
Qed.

(** A payload that decodes, saved where there is no directory: [open]
    raises, and no file appears. *)
Example scenario_save_to_missing_directory :
  save_base64_to_file (PStr "AAAA") "/nonexistent/x.bin" Fixture.w0
  = (Raise (mkExn OSError "[Errno 2] No such file or directory: '/nonexistent/x.bin'"),
     Fixture.w0)
  /\ save_base64_to_file (PStr "AAAA") "/srv" Cases.w_clip
     = (Raise (mkExn OSError "[Errno 21] Is a directory: '/srv'"), Cases.w_clip).
Proof. split; reflexivity. Qed.

Lemma b64_text_has_no_header (s : string) :
  forallb is_b64_char (list_ascii_of_string s) = true ->
  Str.startswith s "data:" = false.
Proof.
  unfold Str.startswith.
  destruct s as [|c1 [|c2 [|c3 [|c4 [|c5 s]]]]]; cbn [String.prefix];
    repeat match goal with
           | |- context [ascii_dec ?a ?b] => destruct (ascii_dec a b); [subst |]
           end;
    try reflexivity.
  cbn. intros H. discriminate H.
Qed.

Lemma b64encode_chars (data : bytes) :
  forallb is_b64_char (list_ascii_of_string (b64encode data)) = true.
Proof.
  unfold b64encode. rewrite list_ascii_of_string_of_list_ascii.
  pose proof (b2a_chars _ (bytes_below_256 data)) as H.
  rewrite forallb_forall in *. intros c Hc. apply H in Hc.
  now apply andb_prop in Hc as [_ Hc].
Qed.

(** What [b64encode] wrote decodes, as a payload, to the bytes encoded. *)
Lemma decode_payload_b64encode (data : bytes) :
  decode_payload (PStr (b64encode data)) = inl data.
Proof.
  unfold decode_payload. cbn [Py.startswith].
  rewrite (b64_text_has_no_header _ (b64encode_chars data)).
  cbn [PyLib.b64decode]. apply b64decode_b64encode.
Qed.

(** X13. Round trip of the two helpers: the text [encode_file_to_base64]
    reads off a file, written back with [save_base64_to_file] to a path
    that [open] accepts, gives a file with the same bytes. *)
Theorem encode_then_save_round_trip (p q : path) (data : bytes) (w : World) :
  file_contents p (w_files w) = inl data ->
  open_wb_error q (w_files w) (w_dirs w) = None ->
  exists text w1,
    encode_file_to_base64 p w = (Next text, w1)
    /\ text = b64encode data
    /\ w_files w1 = w_files w
    /\ save_base64_to_file (PStr text) q w1 = (Next q, staged q data w1)
    /\ lookup_file q (w_files (staged q data w1)) = Some data.
Proof.
  intros Hp Hq. exists (b64encode data), (log (EvReadFile p) w).
  unfold encode_file_to_base64, read_file, bind. rewrite Hp. cbn [ret].
  split; [reflexivity |]. split; [reflexivity |]. split; [reflexivity |].
  rewrite save_base64_to_file_eq. unfold save_outcome.
  rewrite decode_payload_b64encode. cbn [w_files w_dirs log]. rewrite Hq.
  split; [reflexivity | apply lookup_store_same].
Qed.

Lemma encode_then_save_round_trip_witness :
  file_contents "/srv/clip.mp4" (w_files Cases.w_clip) = inl Fixture.ten_bytes
  /\ open_wb_error "/srv/copy.mp4" (w_files Cases.w_clip) (w_dirs Cases.w_clip) = None
  /\ exists text w1,
      encode_file_to_base64 "/srv/clip.mp4" Cases.w_clip = (Next text, w1)
      /\ text = b64encode Fixture.ten_bytes
      /\ w_files w1 = w_files Cases.w_clip
      /\ save_base64_to_file (PStr text) "/srv/copy.mp4" w1
         = (Next "/srv/copy.mp4", staged "/srv/copy.mp4" Fixture.ten_bytes w1)
      /\ lookup_file "/srv/copy.mp4"
           (w_files (staged "/srv/copy.mp4" Fixture.ten_bytes w1))
         = Some Fixture.ten_bytes.
Proof.
  split; [reflexivity |]. split; [reflexivity |].
  exact (encode_then_save_round_trip "/srv/clip.mp4" "/srv/copy.mp4"
           Fixture.ten_bytes Cases.w_clip eq_refl eq_refl).
Defined.

Lemma split1_at_comma (h rest : string) :
  comma_free h = true ->
  Str.split1 ","%char (h ++ "," ++ rest) = (h, Some rest).
Proof.
  unfold comma_free. induction h as [|c h IH]; intros H.
  - reflexivity.
  - cbn [list_ascii_of_string forallb] in H. apply andb_prop in H as [Hc Hh].
    apply negb_true_iff in Hc.
    change (String c h ++ "," ++ rest) with (String c (h ++ "," ++ rest)).
    cbn [Str.split1]. rewrite Hc, (IH Hh). reflexivity.
Qed.

Lemma prefix_app_r (a b : string) : String.prefix a (a ++ b) = true.
Proof.
  induction a as [|c a IH]; cbn.
  - now destruct b.
  - destruct (ascii_dec c c); [exact IH | congruence].
Qed.

(** X14. A data URI is decoded from the text after its first comma: with
    a header that has no comma of its own ([data:<mime>;base64]) and a path
    that [open] accepts, the bytes written are those that were encoded,
    whatever the header says. *)
Theorem data_uri_header_is_stripped (mime : string) (data : bytes) (p : path) (w : World) :
  comma_free mime = true ->
  open_wb_error p (w_files w) (w_dirs w) = None ->
  save_base64_to_file (PStr ("data:" ++ mime ++ "," ++ b64encode data)) p w
  = (Next p, staged p data w).
Proof.
  intros Hm Hp. rewrite save_base64_to_file_eq.
  unfold save_outcome, decode_payload. cbn [Py.startswith]. unfold Str.startswith.
  rewrite (prefix_app_r "data:" (mime ++ "," ++ b64encode data)).
  cbn [PyLib.after_first_comma].
  change ("data:" ++ mime ++ "," ++ b64encode data)
    with (("data:" ++ mime) ++ "," ++ b64encode data).
  rewrite split1_at_comma.
  - cbn [snd PyLib.b64decode]. now rewrite b64decode_b64encode, Hp.
  - unfold comma_free in *. exact Hm.
Qed.

Lemma data_uri_header_is_stripped_witness :
  comma_free "image/png;base64" = true
  /\ open_wb_error "/srv/x.png" (w_files Cases.w_clip) (w_dirs Cases.w_clip) = None
  /\ save_base64_to_file
       (PStr ("data:" ++ "image/png;base64" ++ "," ++ b64encode Fixture.ten_bytes))
       "/srv/x.png" Cases.w_clip
     = (Next "/srv/x.png", staged "/srv/x.png" Fixture.ten_bytes Cases.w_clip).
Proof.
  split; [reflexivity |]. split; [reflexivity |].
  exact (data_uri_header_is_stripped "image/png;base64" Fixture.ten_bytes
           "/srv/x.png" Cases.w_clip eq_refl eq_refl).
Defined.

Lemma split1_no_comma (s : string) :
  comma_free s = true -> snd (Str.split1 ","%char s) = None.
Proof.
  unfold comma_free. induction s as [|c s IH]; intros H.
  - reflexivity.
  - cbn [list_ascii_of_string forallb] in H. apply andb_prop in H as [Hc Hs].
    apply negb_true_iff in Hc. cbn [Str.split1]. rewrite Hc.
    specialize (IH Hs). destruct (Str.split1 ","%char s). exact IH.
Qed.

(** X15. A payload that starts with [data:] but has no comma makes
    [save_base64_to_file] raise [IndexError] before anything is decoded or
    written. *)
Theorem data_uri_without_comma (s : string) (p : path) (w : World) :
  Str.startswith s "data:" = true ->
  comma_free s = true ->
  save_base64_to_file (PStr s) p w
  = (Raise (mkExn IndexError "list index out of range"), w).
Proof.
  intros Hs Hc. rewrite save_base64_to_file_eq.
  unfold save_outcome, decode_payload. cbn [Py.startswith]. rewrite Hs.
  cbn [PyLib.after_first_comma]. now rewrite (split1_no_comma s Hc).
Qed.

Lemma data_uri_without_comma_witness :
  Str.startswith "data:image/png;base64" "data:" = true
  /\ comma_free "data:image/png;base64" = true
  /\ save_base64_to_file (PStr "data:image/png;base64") "/tmp/x.png" Fixture.w0
     = (Raise (mkExn IndexError "list index out of range"), Fixture.w0).
Proof.
  split; [reflexivity |]. split; [reflexivity |].
  exact (data_uri_without_comma "data:image/png;base64" "/tmp/x.png" Fixture.w0
           eq_refl eq_refl).
Defined.

(** X16. The [video] field of a result is well-formed base64 text: decoded
    the way the handler decodes its own inputs, it gives bytes whose
    encoding is the field again, so a returned video can be fed back as a
    payload of a later request. *)
Theorem returned_video_decodes (env : Env) (job : dict) (w : World) (s : string) :
  fst (handler env job w) = Returned (PDict [("video", PStr s)]) ->
  exists b, decode_payload (PStr s) = inl b /\ b64encode b = s.
Proof.
  destruct (handler_paths env job w)
    as [(dft & _ & ->)
       | [(d & w1 & r & Hst & -> & [[e ->] | [msg ->]])
         | (inp & d & w1 & cmd & ip & ap & pp & _ & Hst & _ & _ & _ & ->)]];
    try (cbn [fst]; unfold error_result; intros H; discriminate H).
  rewrite run_and_collect_eq. cbn zeta. unfold run_failure, error_result.
  destruct (argv_of cmd) as [argv|e];
    [destruct (child env argv "/app" (w_files w1)) as [e|x]; [| run_branches d x] |];
    cbn [fst snd as_outcome]; try destruct (is_TimeoutExpired e);
    intros H; try discriminate H.
  injection H as <-.
  exists b. split; [apply decode_payload_b64encode | reflexivity].
Qed.

Lemma returned_video_decodes_witness :
  fst (handler Fixture.env0 Fixture.good_job Fixture.w0)
  = Returned (PDict [("video", PStr "AAECAwQFBgcICQ==")])
  /\ exists b, decode_payload (PStr "AAECAwQFBgcICQ==") = inl b
               /\ b64encode b = "AAECAwQFBgcICQ==".
Proof.
  split; [vm_compute; reflexivity |].
  exact (returned_video_decodes Fixture.env0 Fixture.good_job Fixture.w0
           "AAECAwQFBgcICQ==" eq_refl).
Defined.

Lemma lookup_rmtree_outside (d p : path) (w : World) :
  under d p = false ->
  lookup_file p (w_files (rmtree d w)) = lookup_file p (w_files w).
Proof.
  intros Hu. unfold rmtree. cbn [w_files log].
  induction (w_files w) as [|[q b] fs IH]; [reflexivity |].
  cbn [filter lookup_file]. destruct (under d q) eqn:Hq; cbn [negb lookup_file].
  - destruct (String.eqb_spec p q) as [->|]; [congruence | exact IH].
  - now rewrite IH.
Qed.

Lemma lookup_staged_outside (d x p : path) (data : bytes) (w : World) :
  under d p = false ->
  lookup_file p (w_files (staged (d ++ "/" ++ x) data w)) = lookup_file p (w_files w).
Proof.
  intros Hu. unfold staged. cbn [w_files log set_files].
  apply lookup_store_other. intros ->. now rewrite under_join in Hu.
Qed.

Lemma run_and_collect_files (env : Env) (cmd : list pyval) (d q : path) (w : World) :
  (forall argv cwd fs x,
      child env argv cwd fs = Started x -> lookup_file q (x_files x) = lookup_file q fs) ->
  lookup_file q (w_files (snd (run_and_collect env cmd d w))) = lookup_file q (w_files w).
Proof.
  intros Hchild. rewrite run_and_collect_eq. cbn zeta.
  destruct (argv_of cmd) as [argv|e]; [| reflexivity].
  destruct (child env argv "/app" (w_files w)) as [e|x] eqn:Hx; [reflexivity |].
  apply Hchild in Hx.
  run_branches d x; cbn; exact Hx.
Qed.

Ltac final_world H :=
  apply (f_equal snd) in H; cbn [snd] in H; rewrite <- H.

(** X17. The handler writes only inside its scratch directory: a file
    outside it that the external program leaves alone has, when the call
    ends, the contents it had when the call began (and is absent if it was
    absent), whatever the request and however the call ends. *)
Theorem files_outside_scratch_kept (env : Env) (job : dict) (w : World) (p : path) :
  (forall d, In (EvMkdtemp d) (events_since w (snd (handler env job w))) ->
             under d p = false) ->
  (forall argv cwd fs x,
      child env argv cwd fs = Started x -> lookup_file p (x_files x) = lookup_file p fs) ->
  lookup_file p (w_files (snd (handler env job w))) = lookup_file p (w_files w).
Proof.
  intros Hout Hchild.
  destruct (handler_validation env job w) as [(dft & _ & ->) | (inp & Hin & Himg & Haud)];
    [reflexivity |].
  destruct (handler_lifecycle env job w) as [Hw | (d' & w2 & evs & Hw & Ht & _)];
    [now rewrite Hw |].
  assert (Hd' : under d' p = false).
  { apply Hout. rewrite Hw.
    rewrite (events_since_app _ _ (EvMkdtemp d' :: evs ++ [EvRmtree d'])%list);
      [left; reflexivity | rewrite rmtree_trace, Ht, <- app_assoc; reflexivity]. }
  clear Hout. revert Hw.
  rewrite (handler_process env job inp w Hin Himg Haud). cbn zeta.
  set (d := tmp_name env (w_files w) (w_dirs w)).
  destruct (job_body _ _ _ _ _ _ _ _ _ _ _ _) as [r wb] eqn:Hb. cbn [snd]. intros Hw.
  assert (Hd : under d p = false).
  { apply (f_equal w_trace) in Hw. rewrite !rmtree_trace in Hw.
    apply app_inj_tail in Hw as [_ Hw]. injection Hw as Hw. now rewrite Hw. }
  clear Hw Ht Hd'. rewrite (lookup_rmtree_outside d p wb Hd).
  rewrite job_body_eq in Hb.
  destruct (detect_image_ext _) as [iext|e]; [| now final_world Hb].
  destruct (detect_audio_ext _) as [aext|e]; [| now final_world Hb].
  rewrite stage_inputs_eq in Hb.
  destruct (save_outcome (dict_get_default "image_base64" PNone inp) _ _) as [bi|e];
    [| now final_world Hb].
  destruct (save_outcome (dict_get_default "audio_base64" PNone inp) _ _) as [ba|e];
    [| final_world Hb; now rewrite lookup_staged_outside].
  destruct (truthy (dict_get_default "pose_video_base64" PNone inp));
    [destruct (save_outcome (dict_get_default "pose_video_base64" PNone inp) _ _)
       as [bp|e]; [| final_world Hb; now rewrite !lookup_staged_outside] |];
    (destruct (build_cmd _ _ _ _ _ _ _ _ _ _ _) as [cmd|e];
     final_world Hb; [rewrite (run_and_collect_files env cmd d p _ Hchild) |];
     now rewrite !lookup_staged_outside).
Qed.

Lemma files_outside_scratch_kept_witness :
  lookup_file "/srv/clip.mp4"
    (w_files (snd (handler (Fixture.env_with Fixture.writes_nothing)
                     Fixture.good_job Cases.w_clip)))
  = lookup_file "/srv/clip.mp4" (w_files Cases.w_clip).
Proof.
  apply (files_outside_scratch_kept (Fixture.env_with Fixture.writes_nothing)
           Fixture.good_job Cases.w_clip "/srv/clip.mp4").
  - intros d Hd. vm_compute in Hd.
    repeat (destruct Hd as [Hd | Hd]; [try discriminate Hd |]); [| contradiction].
    injection Hd as <-. reflexivity.
  - intros argv cwd fs x H. injection H as <-. reflexivity.
Defined.

(** ** The staged pose video and the listing *)

Lemma strip_prefix_join (d x : string) : Str.strip_prefix (d ++ "/") (d ++ "/" ++ x) = Some x.
Proof.
  induction d as [|c d IH]; cbn.
  - reflexivity.
  - now rewrite Ascii.eqb_refl.
Qed.

Lemma lookup_file_in (p : path) (fs : files) :
  lookup_file p fs <> None -> exists b, In (p, b) fs.
Proof.
  induction fs as [|[q b] fs IH]; cbn; [congruence |].
  destruct (String.eqb_spec p q) as [->|]; intros H.
  - exists b. now left.
  - destruct (IH H) as [b' Hb']. exists b'. now right.
Qed.

Lemma in_dedup (x : string) (l : list string) : In x l -> In x (dedup l).
Proof.
  induction l as [|a l IH]; [contradiction |].
  intros Hx. cbn [dedup].
  destruct (String.eqb_spec a x) as [->|Hne]; [now left |].
  right. apply filter_In. split.
  - destruct Hx as [-> | Hx]; [contradiction | auto].
  - apply negb_true_iff. now apply String.eqb_neq.
Qed.

(** A file [pose.mp4] of the directory [d] is among what the pattern
    [*.mp4] matches there. *)
Lemma glob_mp4_pose (before : string -> string -> bool) (d : path) (fs : files) :
  lookup_file (d ++ "/" ++ "pose.mp4") fs <> None -> glob_mp4 before d fs <> [].
Proof.
  intros H. apply lookup_file_in in H as [b Hb].
  assert (Hin : In "pose.mp4" (listdir d fs)).
  { unfold listdir. apply in_dedup. apply in_flat_map.
    exists (d ++ "/" ++ "pose.mp4", b). split; [exact Hb |].
    unfold entry_name. rewrite strip_prefix_join. cbn. now left. }
  assert (Hf : In "pose.mp4"
                 (filter (fun n => Str.endswith n ".mp4") (scandir before d fs))).
  { apply filter_In. split; [now apply in_sort_by | reflexivity]. }
  unfold glob_mp4. intros E. apply map_eq_nil in E. rewrite E in Hf. contradiction.
Qed.

(** X18. The pose video is staged as [pose.mp4] in the very directory that
    is searched for [*.mp4] afterwards: for a request with a truthy pose
    video, and a program that deletes none of the files it finds, the error
    [No output video generated] is never returned, even if the program
    produced nothing. *)
Theorem pose_video_hides_missing_output (env : Env) (job inp : dict) (w : World)
        (out err : string) :
  dict_get "input" job = Some (PDict inp) ->
  truthy (dict_get_default "pose_video_base64" PNone inp) = true ->
  (forall argv cwd fs x q,
      child env argv cwd fs = Started x ->
      lookup_file q fs <> None -> lookup_file q (x_files x) <> None) ->
  fst (handler env job w)
  <> Returned (PDict [("error", PStr "No output video generated");
                      ("stdout", PStr out); ("stderr", PStr err)]).
Proof.
  intros Hin Hpose Hkeep.
  destruct (handler_validation env job w) as [(dft & _ & ->) | (inp' & Hin' & Himg & Haud)];
    [unfold error_result; discriminate |].
  assert (inp' = inp) as -> by congruence.
  rewrite (handler_process env job inp w Hin Himg Haud). cbn zeta.
  set (d := tmp_name env (w_files w) (w_dirs w)).
  rewrite job_body_eq.
  destruct (detect_image_ext _) as [iext|e]; [| discriminate].
  destruct (detect_audio_ext _) as [aext|e]; [| discriminate].
  rewrite stage_inputs_eq, Hpose. unfold error_result.
  destruct (save_outcome (dict_get_default "image_base64" PNone inp) _ _) as [bi|e];
    [| discriminate].
  destruct (save_outcome (dict_get_default "audio_base64" PNone inp) _ _) as [ba|e];
    [| discriminate].
  destruct (save_outcome (dict_get_default "pose_video_base64" PNone inp) _ _) as [bp|e];
    [| discriminate].
  destruct (build_cmd _ _ _ _ _ _ _ _ _ _ _) as [cmd|e]; [| discriminate].
  set (w1 := staged (d ++ "/" ++ "pose.mp4") bp _).
  assert (Hst : lookup_file (d ++ "/" ++ "pose.mp4") (w_files w1) <> None).
  { unfold w1, staged. cbn [w_files log set_files].
    rewrite lookup_store_same. discriminate. }
  rewrite run_and_collect_eq. cbn zeta. unfold run_failure, error_result.
  destruct (argv_of cmd) as [argv|e];
    [destruct (child env argv "/app" (w_files w1)) as [e|x] eqn:Hx |];
    try (destruct (is_TimeoutExpired e); discriminate).
  pose proof (glob_mp4_pose (dir_order env) d (x_files x) (Hkeep _ _ _ _ _ Hx Hst))
    as Hglob.
  run_branches d x; try discriminate.
  contradiction.
Qed.

Lemma pose_video_hides_missing_output_witness :
  truthy (dict_get_default "pose_video_base64" PNone
            [("image_base64", PStr Fixture.jpeg_b64); ("audio_base64", PStr Fixture.wav_b64);
             ("pose_video_base64", PStr "AAAA")]) = true
  /\ fst (handler (Fixture.env_with Fixture.writes_nothing) Cases.pose_job Fixture.w0)
     <> Returned (PDict [("error", PStr "No output video generated");
                         ("stdout", PStr "out text"); ("stderr", PStr "err text")]).
Proof.
  split; [reflexivity |].
  apply (pose_video_hides_missing_output (Fixture.env_with Fixture.writes_nothing)
           Cases.pose_job
           [("image_base64", PStr Fixture.jpeg_b64); ("audio_base64", PStr Fixture.wav_b64);
            ("pose_video_base64", PStr "AAAA")]
           Fixture.w0 "out text" "err text").
  - reflexivity.
  - reflexivity.
  - intros argv cwd fs x q H. injection H as <-. exact (fun H' => H').
Defined.
